(** * tap-facebook-pages: the extraction engine of [streams.py]

    A shallow embedding of [tap_facebook_pages/streams.py]: the pagination
    loop [request_records], the per-stream parameter builders
    [get_url_params], the next-page token rules [get_next_page_token], the
    response flatteners [parse_response], the log redaction of
    [prepare_request] and the state migration of
    [get_stream_or_partition_state].

    Python values are modelled by the type [json] (what [response.json()]
    returns; numbers are integers here).  A Python [dict] that is iterated
    or emitted as a row is an association list in insertion order; the
    request parameters and the access-token table are finite maps. *)

From Stdlib Require Import ZArith String Ascii List Bool Lia DecimalString.
From stdpp Require Import base option list strings gmap.

Local Open Scope string_scope.
Local Open Scope list_scope.
Local Open Scope Z_scope.

(** ** Python values *)

#[warnings="-register-all"]
Inductive json : Type :=
| JNull
| JBool (b : bool)
| JInt (n : Z)
| JStr (s : string)
| JList (l : list json)
| JObj (d : list (string * json)).

(** A Python dict: keys are unique, the order is the insertion order. *)
Abbreviation pydict := (list (string * json)).

(** Exceptions the modelled code can raise. *)
Inductive exc : Type :=
| KeyError (key : string)
| TypeError
| AttributeError
| ValueError
| IndexError
| RequestException (msg : string)
(** the [RuntimeError] of the pagination loop; its message quotes the token *)
| RuntimeError (token : json).

(** ** The error monad *)

Inductive result (A : Type) : Type :=
| Ok (a : A)
| Raise (e : exc).
Arguments Ok {A} a.
Arguments Raise {A} e.

Definition bind {A B} (r : result A) (k : A -> result B) : result B :=
  match r with
  | Ok a => k a
  | Raise e => Raise e
  end.

Notation "'let!' x ':=' r 'in' k" := (bind r (fun x => k))
  (at level 10, x name, r at level 100, k at level 200, only parsing).

(** ** Generators

    A generator body yields rows and either runs to its end or stops at an
    exception; the rows yielded before the exception have been handed to the
    consumer. *)

Record gen (A : Type) : Type := Gen { yielded : list json; outcome : result A }.
Arguments Gen {A} yielded outcome.
Arguments yielded {A} g.
Arguments outcome {A} g.

Definition gen_ret {A} (a : A) : gen A := Gen [] (Ok a).
Definition gen_yield (row : json) : gen unit := Gen [row] (Ok tt).
Definition gen_lift {A} (r : result A) : gen A := Gen [] r.

Definition gen_bind {A B} (g : gen A) (k : A -> gen B) : gen B :=
  match outcome g with
  | Ok a => Gen (yielded g ++ yielded (k a)) (outcome (k a))
  | Raise e => Gen (yielded g) (Raise e)
  end.

Notation "'do!' x ':=' g 'in' k" := (gen_bind g (fun x => k))
  (at level 10, x name, g at level 100, k at level 200, only parsing).
Notation "'try!' x ':=' r 'in' k" := (gen_bind (gen_lift r) (fun x => k))
  (at level 10, x name, r at level 100, k at level 200, only parsing).
Notation "g ';;' k" := (gen_bind g (fun _ => k))
  (at level 100, k at level 200, right associativity, only parsing).

(** [for x in xs: body x] inside a generator. *)
Fixpoint gen_for {A} (xs : list A) (body : A -> gen unit) : gen unit :=
  match xs with
  | [] => gen_ret tt
  | x :: xs' => body x ;; gen_for xs' body
  end.

(** ** Dict operations, in insertion order *)

Fixpoint dict_get (k : string) (d : pydict) : option json :=
  match d with
  | [] => None
  | (k', v) :: d' => if String.eqb k k' then Some v else dict_get k d'
  end.

Definition dict_mem (k : string) (d : pydict) : bool :=
  match dict_get k d with Some _ => true | None => false end.

(** [d[k] = v]: a present key keeps its position, a new key goes last. *)
Fixpoint dict_set (k : string) (v : json) (d : pydict) : pydict :=
  match d with
  | [] => [(k, v)]
  | (k', v') :: d' =>
      if String.eqb k k' then (k', v) :: d' else (k', v') :: dict_set k v d'
  end.

(** [d.update(other)] *)
Definition dict_update (d other : pydict) : pydict :=
  fold_left (fun acc kv => dict_set (fst kv) (snd kv) acc) other d.

(** [d.pop(k)] for a key that is present (the only use in the source). *)
Fixpoint dict_pop (k : string) (d : pydict) : pydict :=
  match d with
  | [] => []
  | (k', v') :: d' =>
      if String.eqb k k' then d' else (k', v') :: dict_pop k d'
  end.

(** ** Python operators on values *)

(** [bool(v)] *)
Definition truthy (v : json) : bool :=
  match v with
  | JNull => false
  | JBool b => b
  | JInt n => negb (Z.eqb n 0)
  | JStr s => negb (String.eqb s "")
  | JList l => match l with [] => false | _ => true end
  | JObj d => match d with [] => false | _ => true end
  end.

(** [a == b]: a bool is the integer 0 or 1, lists compare element by
    element, dicts compare by key whatever the order. *)
Fixpoint py_eq (a b : json) : bool :=
  match a, b with
  | JNull, JNull => true
  | JBool x, JBool y => Bool.eqb x y
  | JBool x, JInt n | JInt n, JBool x => Z.eqb n (if x then 1 else 0)
  | JInt x, JInt y => Z.eqb x y
  | JStr x, JStr y => String.eqb x y
  | JList l1, JList l2 =>
      (fix all2 (l1 l2 : list json) : bool :=
         match l1, l2 with
         | [], [] => true
         | x :: l1', y :: l2' => py_eq x y && all2 l1' l2'
         | _, _ => false
         end) l1 l2
  | JObj d1, JObj d2 =>
      Nat.eqb (length d1) (length d2)
      && (fix all_in (d : pydict) : bool :=
            match d with
            | [] => true
            | (k, v) :: d' =>
                match dict_get k d2 with
                | Some v2 => py_eq v v2
                | None => false
                end && all_in d'
            end) d1
  | _, _ => false
  end.

(** [isinstance(v, dict)] and [isinstance(v, list)] *)
Definition is_dict (v : json) : bool :=
  match v with JObj _ => true | _ => false end.
Definition is_list (v : json) : bool :=
  match v with JList _ => true | _ => false end.

(** [needle in hay] on strings. *)
Fixpoint is_substring (needle hay : string) : bool :=
  if String.prefix needle hay then true
  else match hay with
       | EmptyString => false
       | String _ hay' => is_substring needle hay'
       end.

Definition json_is_str (k : string) (v : json) : bool :=
  match v with JStr s => String.eqb s k | _ => false end.

(** [k in v] for a string [k]. *)
Definition py_in (k : string) (v : json) : result bool :=
  match v with
  | JObj d => Ok (dict_mem k d)
  | JList l => Ok (existsb (json_is_str k) l)
  | JStr s => Ok (is_substring k s)
  | _ => Raise TypeError
  end.

(** [v[k]] for a string [k]. *)
Definition py_getitem (v : json) (k : string) : result json :=
  match v with
  | JObj d => match dict_get k d with Some x => Ok x | None => Raise (KeyError k) end
  | _ => Raise TypeError
  end.

(** The elements [for x in v] visits. *)
Definition py_iter (v : json) : result (list json) :=
  match v with
  | JList l => Ok l
  | JObj d => Ok (map (fun kv => JStr (fst kv)) d)
  | JStr s => Ok (map (fun c => JStr (String c EmptyString)) (list_ascii_of_string s))
  | _ => Raise TypeError
  end.

(** [v[k] = x] for a string [k]. *)
Definition py_setitem (v : json) (k : string) (x : json) : result json :=
  match v with
  | JObj d => Ok (JObj (dict_set k x d))
  | _ => Raise TypeError
  end.

(** [v.update(other)]: only a dict has the method. *)
Definition py_update (v : json) (other : pydict) : result json :=
  match v with
  | JObj d => Ok (JObj (dict_update d other))
  | _ => Raise AttributeError
  end.

(** [v.pop(k)] for a string [k]; a list refuses a string index. *)
Definition py_pop (v : json) (k : string) : result json :=
  match v with
  | JObj d => if dict_mem k d then Ok (JObj (dict_pop k d)) else Raise (KeyError k)
  | JList _ => Raise TypeError
  | _ => Raise AttributeError
  end.

(** ** Collaborators that are not part of the source

    [urllib], [int] on strings, the prepared request of [requests] and the
    SDK's [get_starting_timestamp] are used by the source but defined
    elsewhere; the model takes them as a record of functions. *)

(** A partition as the tap supplies it: a dict whose only key is
    ["page_id"]. *)
Record page_partition : Type := Partition { page_id : string }.

(** A value of the request-parameter dict: [parse_qs] only produces lists
    of strings, the builders add integers and strings. *)
Inductive pval : Type :=
| PInt (n : Z)
| PStr (s : string)
| PList (l : list string).

Abbreviation url_params := (gmap string pval).

Record pylib : Type := PyLib {
  (** [urllib.parse.parse_qs(urllib.parse.urlparse(url).query)] *)
  parse_qs_query : string -> result (gmap string (list string));
  (** [int(s)] for a string [s] *)
  int_of_str : string -> result Z;
  (** [urllib.parse.unquote(url)] *)
  unquote : string -> string;
  (** the URL of the request prepared from a base URL and the parameters.
      The parameters are a finite map, which forgets the order in which the
      dict was filled; that order is the one of the token's query followed
      by the keys the builders add, so the function is given the token. *)
  prepared_url : string -> json -> url_params -> string;
  (** [int(self.get_starting_timestamp(partition).timestamp())], when the
      SDK finds a starting timestamp *)
  get_starting_timestamp : page_partition -> option Z
}.

(** [str(n)] for an integer. *)
Definition py_str (n : Z) : string := NilZero.string_of_int (Z.to_int n).

(** [",".join(l)] *)
Definition join_comma (l : list string) : string := String.concat "," l.

(** What a stream instance reads from [self]. *)
Record stream_config : Type := StreamConfig {
  access_tokens : gmap string string;
  metrics : list string;
  (** [self.config['columns']] when ['columns' in self.config] *)
  columns : option (list string);
  (** [self.schema["properties"].keys()] *)
  schema_properties : list string
}.

(** The partition behind [partition["page_id"]]: subscripting [None] is a
    [TypeError]. *)
Definition subscriptable (partition : option page_partition) : result page_partition :=
  match partition with
  | Some p => Ok p
  | None => Raise TypeError
  end.

(** [int(datetime.timedelta(n).total_seconds())] *)
Definition timedelta_seconds (days : Z) : Z := days * 86400.

(** ** Parameter builders *)

Module FacebookPagesStream.

(** [urllib.parse.parse_qs(urllib.parse.urlparse(token).query)]: a value
    that is not a string is decoded by [urlparse] when it is truthy, which
    fails, and is read as the empty URL otherwise. *)
Definition token_query (L : pylib) (token : json)
    : result (gmap string (list string)) :=
  match token with
  | JStr url => parse_qs_query L url
  | _ => if truthy token then Raise AttributeError else Ok ∅
  end.

Definition token_params (L : pylib) (next_page_token : json) : result url_params :=
  let! q := token_query L next_page_token in Ok (PList <$> q).

(** The parameters [get_url_params] of the base class returns; the line
    it logs on the way is [get_url_params_info]. *)
Definition get_url_params (L : pylib) (self : stream_config)
    (partition : option page_partition) (next_page_token : json) : result url_params :=
  let! p := subscriptable partition in
  if truthy next_page_token then token_params L next_page_token
  else
    let params : url_params := ∅ in
    let params :=
      match get_starting_timestamp L p with
      | Some start_date_timestamp => <["since" := PInt start_date_timestamp]> params
      | None => params
      end in
    let params :=
      match access_tokens self !! page_id p with
      | Some tok => <["access_token" := PStr tok]> params
      | None => params
      end in
    Ok (<["limit" := PInt 100]> params).

(** The INFO lines [get_url_params] of the base class writes before it
    returns: on a request without token, a page that has no entry in
    [access_tokens] is reported.  Every stream's builder calls the base
    builder first, so the line is out before a builder raises. *)
Definition get_url_params_info (self : stream_config)
    (partition : option page_partition) (next_page_token : json) : list string :=
  match partition with
  | None => []
  | Some p =>
      if truthy next_page_token then []
      else match access_tokens self !! page_id p with
           | Some _ => []
           | None => [("Not enough rights for page: " ++ page_id p)%string]
           end
  end.

(** [get_next_page_token] of the base class, on [response.json()]. *)
Definition get_next_page_token (resp_json : json) (previous_token : json)
    : result json :=
  let! has_paging := py_in "paging" resp_json in
  if (has_paging : bool) then
    let! paging := py_getitem resp_json "paging" in
    let! has_next := py_in "next" paging in
    if (has_next : bool) then
      let! paging := py_getitem resp_json "paging" in
      py_getitem paging "next"
    else Ok JNull
  else Ok JNull.

(** The line [prepare_request] logs: [re.sub] of
    ["access_token=[a-zA-Z0-9]+&"] by ["access_token=*****&"]. *)
Definition is_alnum (c : ascii) : bool :=
  let n := N_of_ascii c in
  ((48 <=? n) && (n <=? 57) || (65 <=? n) && (n <=? 90)
   || (97 <=? n) && (n <=? 122))%N.

(** Length of the longest run of [[a-zA-Z0-9]] at the head of [s]. *)
Fixpoint alnum_run (s : string) : nat :=
  match s with
  | String c s' => if is_alnum c then S (alnum_run s') else 0%nat
  | EmptyString => 0%nat
  end.

Fixpoint drop_string (n : nat) (s : string) : string :=
  match n, s with
  | S n', String _ s' => drop_string n' s'
  | _, _ => s
  end.

(** Does the pattern match at the head of [s]?  The greedy run of
    alphanumerics must be non-empty and be followed by [&] (a shorter run
    cannot be followed by [&], which is not alphanumeric).  Returns the
    length of the match. *)
Definition match_access_token (s : string) : option nat :=
  if String.prefix "access_token=" s then
    let rest := drop_string 13 s in
    let n := alnum_run rest in
    match n, drop_string n rest with
    | S _, String "&" _ => Some (13 + n + 1)%nat
    | _, _ => None
    end
  else None.

(** [re.sub]: leftmost matches, not overlapping; [skip] counts the
    characters of the current match that are still to be dropped. *)
Fixpoint re_sub_from (skip : nat) (s : string) : string :=
  match s with
  | EmptyString => EmptyString
  | String c s' =>
      match skip with
      | S skip' => re_sub_from skip' s'
      | O =>
          match match_access_token s with
          | Some len => ("access_token=*****&" ++ re_sub_from (len - 1) s')%string
          | None => String c (re_sub_from 0 s')
          end
      end
  end.

Definition redact_access_token (s : string) : string := re_sub_from 0 s.

(** The request [super().prepare_request] builds: the stream's URL with the
    parameters of [get_url_params]. *)
Record prepared_request : Type := PreparedRequest {
  req_url : string;
  req_params : url_params
}.

Definition BASE_URL : string := "https://graph.facebook.com/v10.0/{page_id}".

(** [BASE_URL] with [{page_id}] filled in, followed by the stream's path. *)
Definition get_url (path : string) (partition : option page_partition)
    : result string :=
  let! p := subscriptable partition in
  Ok ("https://graph.facebook.com/v10.0/" ++ page_id p ++ path)%string.

(** [prepare_request], given the stream's [get_url_params]: the request
    and the line [prepare_request] itself writes to the log. *)
Definition prepare_request (L : pylib) (path : string)
    (get_url_params : option page_partition -> json -> result url_params)
    (p : option page_partition) (next_page_token : json)
    : result (prepared_request * string) :=
  let! url := get_url path p in
  let! params := get_url_params p next_page_token in
  let req := PreparedRequest (prepared_url L url next_page_token params) params in
  Ok (req, redact_access_token (unquote L (req_url req))).

(** [post_process] of the base class; [partition] is the dict the SDK
    passes, [None] when the stream has no partitions. *)
Definition post_process (row : json) (partition : option pydict) : result json :=
  match partition with
  | None => Raise TypeError
  | Some partition =>
      match dict_get "page_id" partition with
      | Some page_id => py_setitem row "page_id" page_id
      | None => Ok row
      end
  end.

(** [get_stream_or_partition_state]: the partition's state when a
    partition is given, the stream's state otherwise; the assignment
    updates the stored dict, which is the one returned. *)
Definition get_stream_or_partition_state (stream_state : pydict)
    (get_partition_state : page_partition -> pydict)
    (partition : option page_partition) : pydict :=
  let state :=
    match partition with
    | Some p => get_partition_state p
    | None => stream_state
    end in
  if dict_mem "progress_markers" state
     && is_list (default (JBool false) (dict_get "progress_markers" state))
  then dict_set "progress_markers" (JObj []) state
  else state.

End FacebookPagesStream.

Module Page.

Definition path : string := "".

(** [','.join(self.config['columns'])] or the schema's property names. *)
Definition fields (self : stream_config) : string :=
  match columns self with
  | Some cols => join_comma cols
  | None => join_comma (schema_properties self)
  end.

Definition get_url_params (L : pylib) (self : stream_config)
    (partition : option page_partition) (next_page_token : json) : result url_params :=
  let! params := FacebookPagesStream.get_url_params L self partition next_page_token in
  Ok (<["fields" := PStr (fields self)]> params).

End Page.

Module Posts.

Definition path : string := "/posts".

Definition get_url_params (L : pylib) (self : stream_config)
    (partition : option page_partition) (next_page_token : json) : result url_params :=
  let! params := FacebookPagesStream.get_url_params L self partition next_page_token in
  if truthy next_page_token then Ok params
  else Ok (<["fields" := PStr (Page.fields self)]> params).

Definition parse_response (page_id : string) (resp_json : json) : gen unit :=
  try! data := py_getitem resp_json "data" in
  try! rows := py_iter data in
  gen_for rows (fun row =>
    try! row := py_setitem row "page_id" (JStr page_id) in
    gen_yield row).

End Posts.

Module PostTaggedProfile.

Definition path : string := "/posts".

Definition get_url_params (L : pylib) (self : stream_config)
    (partition : option page_partition) (next_page_token : json) : result url_params :=
  let! params := FacebookPagesStream.get_url_params L self partition next_page_token in
  if truthy next_page_token then Ok params
  else Ok (<["fields" := PStr "id,created_time,to"]> params).

Definition parse_response (page_id : string) (resp_json : json) : gen unit :=
  try! data := py_getitem resp_json "data" in
  try! rows := py_iter data in
  gen_for rows (fun row =>
    try! post_id := py_getitem row "id" in
    try! post_created_time := py_getitem row "created_time" in
    let parent_info : pydict :=
      [("page_id", JStr page_id); ("post_id", post_id);
       ("post_created_time", post_created_time)] in
    try! has_to := py_in "to" row in
    if (has_to : bool) then
      try! to := py_getitem row "to" in
      try! to_data := py_getitem to "data" in
      try! profiles := py_iter to_data in
      gen_for profiles (fun attachment =>
        try! attachment := py_update attachment parent_info in
        gen_yield attachment)
    else gen_ret tt).

End PostTaggedProfile.

Module PostAttachments.

Definition path : string := "/posts".

Definition get_url_params (L : pylib) (self : stream_config)
    (partition : option page_partition) (next_page_token : json) : result url_params :=
  let! params := FacebookPagesStream.get_url_params L self partition next_page_token in
  if truthy next_page_token then Ok params
  else Ok (<["fields" := PStr "id,created_time,attachments"]> params).

(** The body of [for attachment in row["attachments"]["data"]]. *)
Definition attachment_rows (parent_info : pydict) (attachment : json) : gen unit :=
  try! has_sub := py_in "subattachments" attachment in
  do! attachment :=
    (if (has_sub : bool) then
       try! subattachments := py_getitem attachment "subattachments" in
       try! sub_data := py_getitem subattachments "data" in
       try! subs := py_iter sub_data in
       gen_for subs (fun sub_attachment =>
         try! sub_attachment := py_update sub_attachment parent_info in
         gen_yield sub_attachment) ;;
       gen_lift (py_pop attachment "subattachments")
     else gen_ret attachment) in
  try! attachment := py_update attachment parent_info in
  gen_yield attachment.

(** The body of [for row in resp_json["data"]]. *)
Definition post_rows (page_id : string) (row : json) : gen unit :=
  try! post_id := py_getitem row "id" in
  try! post_created_time := py_getitem row "created_time" in
  let parent_info : pydict :=
    [("page_id", JStr page_id); ("post_id", post_id);
     ("post_created_time", post_created_time)] in
  try! has_attachments := py_in "attachments" row in
  if (has_attachments : bool) then
    try! attachments := py_getitem row "attachments" in
    try! att_data := py_getitem attachments "data" in
    try! atts := py_iter att_data in
    gen_for atts (attachment_rows parent_info)
  else gen_ret tt.

Definition parse_response (page_id : string) (resp_json : json) : gen unit :=
  try! data := py_getitem resp_json "data" in
  try! rows := py_iter data in
  gen_for rows (post_rows page_id).

End PostAttachments.

Module PageInsights.

Definition path : string := "/insights".

(** [params['until'][0]], compared with the clock and replaced in place
    when it lies in the future.  [parse_qs] only produces lists; the other
    shapes are what Python does on them. *)
Definition clamp_token_until (L : pylib) (time day : Z) (params : url_params)
    : result url_params :=
  match params !! "until" with
  | None => Raise (KeyError "until")
  | Some (PList []) => Raise IndexError
  | Some (PList (until :: rest)) =>
      let! n := int_of_str L until in
      if n >? time then Ok (<["until" := PList (py_str (time - day) :: rest)]> params)
      else Ok params
  | Some (PStr EmptyString) => Raise IndexError
  | Some (PStr (String c _)) =>
      let! n := int_of_str L (String c EmptyString) in
      if n >? time then Raise TypeError else Ok params
  | Some (PInt _) => Raise TypeError
  end.

(** [until = params['since'] + 8035200] and the update of ["until"]. *)
Definition first_window (time day : Z) (params : url_params) : result url_params :=
  match params !! "since" with
  | None => Raise (KeyError "since")
  | Some (PInt since) =>
      let until := since + 8035200 in
      Ok (<["until" := PInt (if until <=? time then until else time - day)]> params)
  | Some _ => Raise TypeError
  end.

(** [now] is [int(t.time())] at the call. *)
Definition get_url_params (L : pylib) (self : stream_config) (now : Z)
    (partition : option page_partition) (next_page_token : json) : result url_params :=
  let! params := FacebookPagesStream.get_url_params L self partition next_page_token in
  let time := now in
  let day := timedelta_seconds 1 in
  let! params :=
    (if negb (truthy next_page_token) then first_window time day params
     else clamp_token_until L time day params) in
  Ok (<["metric" := PStr (join_comma (metrics self))]> params).

(** [int(params[key][0])] on the result of [parse_qs]. *)
Definition int_param (L : pylib) (key : string)
    (q : gmap string (list string)) : result Z :=
  match q !! key with
  | None => Raise (KeyError key)
  | Some [] => Raise IndexError
  | Some (x :: _) => int_of_str L x
  end.

Definition get_next_page_token (L : pylib) (now : Z) (resp_json : json)
    (previous_token : json) : result json :=
  let! has_paging := py_in "paging" resp_json in
  if (has_paging : bool) then
    let! paging := py_getitem resp_json "paging" in
    let! has_next := py_in "next" paging in
    if (has_next : bool) then
      let time := now in
      let day := timedelta_seconds 2 in
      let! next := py_getitem paging "next" in
      let! params := FacebookPagesStream.token_query L next in
      let! since := int_param L "since" params in
      let! until := int_param L "until" params in
      if (since >=? time - day) || ((until >=? time) && (until <=? time + day))
      then Ok JNull
      else Ok next
    else Ok JNull
  else Ok JNull.

(** The body of [for values in row["values"]]. *)
Definition values_rows (base_item : pydict) (values : json) : gen unit :=
  try! value := py_getitem values "value" in
  match value with
  | JObj d =>
      gen_for d (fun kv =>
        try! end_time := py_getitem values "end_time" in
        let item : pydict :=
          [("context", JStr (fst kv)); ("value", snd kv); ("end_time", end_time)] in
        gen_yield (JObj (dict_update item base_item)))
  | _ =>
      try! values := py_update values base_item in
      gen_yield values
  end.

(** The body of [for row in resp_json["data"]]. *)
Definition metric_rows (row : json) : gen unit :=
  try! name := py_getitem row "name" in
  try! period := py_getitem row "period" in
  try! title := py_getitem row "title" in
  try! id := py_getitem row "id" in
  let base_item : pydict :=
    [("name", name); ("period", period); ("title", title); ("id", id)] in
  try! has_values := py_in "values" row in
  if (has_values : bool) then
    try! values_list := py_getitem row "values" in
    try! entries := py_iter values_list in
    gen_for entries (values_rows base_item)
  else gen_ret tt.

Definition parse_response (resp_json : json) : gen unit :=
  try! data := py_getitem resp_json "data" in
  try! rows := py_iter data in
  gen_for rows metric_rows.

End PageInsights.

Module PostInsights.

Definition path : string := "/published_posts".

Definition get_url_params (L : pylib) (self : stream_config)
    (partition : option page_partition) (next_page_token : json) : result url_params :=
  let! params := FacebookPagesStream.get_url_params L self partition next_page_token in
  if truthy next_page_token then Ok params
  else
    Ok (<["fields" :=
           PStr ("id,created_time,insights.metric(" ++ join_comma (metrics self) ++ ")")%string]>
          params).

(** The body of [for values in insights["values"]]. *)
Definition values_rows (base_item : pydict) (values : json) : gen unit :=
  try! value := py_getitem values "value" in
  match value with
  | JObj d =>
      gen_for d (fun kv =>
        let item : pydict := [("context", JStr (fst kv)); ("value", snd kv)] in
        gen_yield (JObj (dict_update item base_item)))
  | _ =>
      try! values := py_update values base_item in
      gen_yield values
  end.

(** The body of [for insights in row["insights"]["data"]]. *)
Definition insight_rows (page_id : string) (row insights : json) : gen unit :=
  try! post_id := py_getitem row "id" in
  try! post_created_time := py_getitem row "created_time" in
  try! name := py_getitem insights "name" in
  try! period := py_getitem insights "period" in
  try! title := py_getitem insights "title" in
  try! description := py_getitem insights "description" in
  try! id := py_getitem insights "id" in
  let base_item : pydict :=
    [("post_id", post_id); ("page_id", JStr page_id);
     ("post_created_time", post_created_time); ("name", name);
     ("period", period); ("title", title); ("description", description);
     ("id", id)] in
  try! has_values := py_in "values" insights in
  if (has_values : bool) then
    try! values_list := py_getitem insights "values" in
    try! entries := py_iter values_list in
    gen_for entries (values_rows base_item)
  else gen_ret tt.

(** The body of [for row in resp_json["data"]]. *)
Definition post_rows (page_id : string) (row : json) : gen unit :=
  try! insights := py_getitem row "insights" in
  try! insights_data := py_getitem insights "data" in
  try! metrics := py_iter insights_data in
  gen_for metrics (insight_rows page_id row).

Definition parse_response (page_id : string) (resp_json : json) : gen unit :=
  try! data := py_getitem resp_json "data" in
  try! rows := py_iter data in
  gen_for rows (post_rows page_id).

End PostInsights.

(** ** The pagination loop *)

Inductive log_entry : Type :=
| LogInfo (msg : string)
| LogWarning (e : exc).

Module RequestRecords.
Section request_records.

(** The HTTP layer and its state (the server, the clock). *)
Context {World Response : Type}.

(** The methods [request_records] calls on [self]. *)
Variable prepare_request :
  World -> option page_partition -> json ->
  result (FacebookPagesStream.prepared_request * string).
Variable request_with_backoff :
  FacebookPagesStream.prepared_request -> World -> World * result Response.
Variable parse_response : World -> Response -> gen unit.
Variable get_next_page_token : World -> Response -> json -> result json.
(** The INFO lines [prepare_request] writes, through [get_url_params],
    before it returns or raises. *)
Variable prepare_info : World -> option page_partition -> json -> list string.

Record loop_state : Type := LoopState {
  next_page_token : json;
  world : World;
  (** rows yielded so far *)
  emitted : list json;
  (** requests sent so far, with the token each was prepared from *)
  requests : list (json * FacebookPagesStream.prepared_request);
  log : list log_entry
}.

Definition set_token (tok : json) (st : loop_state) : loop_state :=
  LoopState tok (world st) (emitted st) (requests st) (log st).
Definition set_world (w : World) (st : loop_state) : loop_state :=
  LoopState (next_page_token st) w (emitted st) (requests st) (log st).
Definition emit (rows : list json) (st : loop_state) : loop_state :=
  LoopState (next_page_token st) (world st) (emitted st ++ rows) (requests st) (log st).
Definition sent (req : FacebookPagesStream.prepared_request) (st : loop_state)
    : loop_state :=
  LoopState (next_page_token st) (world st) (emitted st)
    (requests st ++ [(next_page_token st, req)]) (log st).
Definition logged (entry : log_entry) (st : loop_state) : loop_state :=
  LoopState (next_page_token st) (world st) (emitted st) (requests st)
    (log st ++ [entry]).

(** The state once [prepare_request] has written its INFO lines. *)
Definition logged_info (partition : option page_partition) (st : loop_state)
    : loop_state :=
  LoopState (next_page_token st) (world st) (emitted st) (requests st)
    (log st
     ++ map LogInfo (prepare_info (world st) partition (next_page_token st))).

(** The body of [try]: the state it leaves and either the value it
    assigns to [finished] or the exception that leaves it. *)
Definition try_body (req : FacebookPagesStream.prepared_request)
    (st : loop_state) : loop_state * result bool :=
  let '(w, resp) := request_with_backoff req (world st) in
  let st := set_world w (sent req st) in
  match resp with
  | Raise e => (st, Raise e)
  | Ok resp =>
      let g := parse_response w resp in
      let st := emit (yielded g) st in
      match outcome g with
      | Raise e => (st, Raise e)
      | Ok _ =>
          let previous_token := next_page_token st in
          match get_next_page_token w resp previous_token with
          | Raise e => (st, Raise e)
          | Ok tok =>
              let st := set_token tok st in
              if truthy tok && py_eq tok previous_token
              then (st, Raise (RuntimeError tok))
              else (st, Ok (negb (truthy tok)))
          end
      end
  end.

Inductive status : Type :=
| Running
| Finished
| Propagated (e : exc).

(** One turn of [while not finished]. *)
Definition iteration (partition : option page_partition) (st : loop_state)
    : loop_state * status :=
  let st := logged_info partition st in
  match prepare_request (world st) partition (next_page_token st) with
  | Raise e => (st, Propagated e)
  | Ok (req, line) =>
      let st := logged (LogInfo line) st in
      let '(st, r) := try_body req st in
      let '(st, finished) :=
        match r with
        | Ok finished => (st, finished)
        | Raise e => (logged (LogWarning e) st, negb (truthy (next_page_token st)))
        end in
      (st, if (finished : bool) then Finished else Running)
  end.

(** [fuel] bounds the number of turns; [Running] is the answer when the
    loop has not stopped within them. *)
Fixpoint loop (fuel : nat) (partition : option page_partition) (st : loop_state)
    : loop_state * status :=
  match fuel with
  | O => (st, Running)
  | S fuel' =>
      match iteration partition st with
      | (st', Running) => loop fuel' partition st'
      | stopped => stopped
      end
  end.

Definition reading_data_for (partition : option page_partition) : string :=
  ("Reading data for " ++
   match partition with
   | Some p => page_id p
   | None => "None"
   end)%string.

Definition request_records (fuel : nat) (w : World)
    (partition : option page_partition) : loop_state * status :=
  loop fuel partition
    (LoopState JNull w [] [] [LogInfo (reading_data_for partition)]).

End request_records.
End RequestRecords.

(** ** The streams as a closed set *)

Inductive stream_class : Type :=
| CPage
| CPosts
| CPostTaggedProfile
| CPostAttachments
| CPageInsights
| CPostInsights.

(** [get_url_params] of each class; [now] is read by [PageInsights] only. *)
Definition get_url_params (L : pylib) (self : stream_config) (now : Z)
    (c : stream_class) : option page_partition -> json -> result url_params :=
  match c with
  | CPage => Page.get_url_params L self
  | CPosts => Posts.get_url_params L self
  | CPostTaggedProfile => PostTaggedProfile.get_url_params L self
  | CPostAttachments => PostAttachments.get_url_params L self
  | CPageInsights => PageInsights.get_url_params L self now
  | CPostInsights => PostInsights.get_url_params L self
  end.

(** [self.page_id] as [get_url_params] leaves it. *)
Definition self_page_id (partition : option page_partition) : string :=
  match partition with
  | Some p => page_id p
  | None => ""
  end.

(** The methods of the [Posts] stream as [request_records] calls them.  A
    response is the outcome of [response.json()]; the server is the HTTP
    layer behind [_request_with_backoff]. *)
Definition posts_prepare_request {World : Type} (L : pylib) (self : stream_config)
    (w : World) :=
  FacebookPagesStream.prepare_request L Posts.path (Posts.get_url_params L self).

(** The INFO lines of the base [get_url_params], which every stream's
    [prepare_request] goes through. *)
Definition stream_prepare_info {World : Type} (self : stream_config) (w : World) :=
  FacebookPagesStream.get_url_params_info self.

Definition posts_parse_response {World : Type} (partition : option page_partition)
    (w : World) (response : result json) : gen unit :=
  try! resp_json := response in
  Posts.parse_response (self_page_id partition) resp_json.

Definition base_get_next_page_token {World : Type} (w : World)
    (response : result json) (previous_token : json) : result json :=
  let! resp_json := response in
  FacebookPagesStream.get_next_page_token resp_json previous_token.

Definition posts_request_records {World : Type} (L : pylib) (self : stream_config)
    (server : FacebookPagesStream.prepared_request -> World -> World * result (result json))
    (fuel : nat) (w : World) (partition : option page_partition) :=
  RequestRecords.request_records
    (posts_prepare_request L self) server
    (posts_parse_response partition) base_get_next_page_token
    (stream_prepare_info self)
    fuel w partition.

(** The methods of the [PageInsights] stream; [clock] reads [int(t.time())]
    off the world. *)
Definition page_insights_prepare_request {World : Type} (L : pylib)
    (self : stream_config) (clock : World -> Z) (w : World) :=
  FacebookPagesStream.prepare_request L PageInsights.path
    (PageInsights.get_url_params L self (clock w)).

Definition page_insights_parse_response {World : Type} (w : World)
    (response : result json) : gen unit :=
  try! resp_json := response in
  PageInsights.parse_response resp_json.

Definition page_insights_get_next_page_token {World : Type} (L : pylib)
    (clock : World -> Z) (w : World) (response : result json)
    (previous_token : json) : result json :=
  let! resp_json := response in
  PageInsights.get_next_page_token L (clock w) resp_json previous_token.

Definition page_insights_request_records {World : Type} (L : pylib)
    (self : stream_config) (clock : World -> Z)
    (server : FacebookPagesStream.prepared_request -> World -> World * result (result json))
    (fuel : nat) (w : World) (partition : option page_partition) :=
  RequestRecords.request_records
    (page_insights_prepare_request L self clock) server
    page_insights_parse_response (page_insights_get_next_page_token L clock)
    (stream_prepare_info self)
    fuel w partition.

(** ** The collaborators on concrete inputs

    An instance of [pylib] on which the model runs.  Strings are byte
    strings holding UTF-8; a percent-escape whose bytes are not valid UTF-8,
    which Python replaces, and control characters, which [urlparse] strips,
    are outside this instance.  Numerals are the decimal ones [str] prints. *)

Module PlainLib.

(** [s.split(sep, 1)]: the text before the first [sep] and, when there
    is one, the text after it. *)
Fixpoint split_once (sep : ascii) (s : string) : string * option string :=
  match s with
  | EmptyString => (EmptyString, None)
  | String c s' =>
      if Ascii.eqb c sep then (EmptyString, Some s')
      else let '(before, after) := split_once sep s' in (String c before, after)
  end.

(** [s.split(sep)] *)
Fixpoint split_all (sep : ascii) (s : string) : list string :=
  match s with
  | EmptyString => [EmptyString]
  | String c s' =>
      if Ascii.eqb c sep then EmptyString :: split_all sep s'
      else match split_all sep s' with
           | w :: ws => String c w :: ws
           | [] => [String c EmptyString]
           end
  end.

(** [urlparse(url).query]: after the first [?], before the first [#]. *)
Definition query_of (url : string) : string :=
  match split_once "?" (fst (split_once "#" url)) with
  | (_, Some q) => q
  | (_, None) => EmptyString
  end.

(** The value of a hexadecimal digit. *)
Definition hex_value (c : ascii) : option N :=
  let n := N_of_ascii c in
  if ((48 <=? n) && (n <=? 57))%N then Some (n - 48)%N
  else if ((65 <=? n) && (n <=? 70))%N then Some (n - 55)%N
  else if ((97 <=? n) && (n <=? 102))%N then Some (n - 87)%N
  else None.

(** [urllib.parse.unquote]: [%XX] becomes the byte [XX]; a [%] that is not
    followed by two hexadecimal digits stays. *)
Fixpoint unquote (s : string) : string :=
  match s with
  | EmptyString => EmptyString
  | String c s' =>
      match s' with
      | String a (String b rest) =>
          match Ascii.eqb c "%", hex_value a, hex_value b with
          | true, Some x, Some y => String (ascii_of_N (16 * x + y)) (unquote rest)
          | _, _, _ => String c (unquote s')
          end
      | _ => String c (unquote s')
      end
  end.

(** [s.replace('+', ' ')] *)
Fixpoint plus_to_space (s : string) : string :=
  match s with
  | EmptyString => EmptyString
  | String c s' => String (if Ascii.eqb c "+" then " "%char else c) (plus_to_space s')
  end.

(** One field of [parse_qsl]: a field without [=] or with an empty value
    is dropped; name and value are decoded. *)
Definition field_of (field : string) : option (string * string) :=
  match split_once "=" field with
  | (name, Some value) =>
      if String.eqb value "" then None
      else Some (unquote (plus_to_space name), unquote (plus_to_space value))
  | (_, None) => None
  end.

(** [parse_qs]: repeated names collect their values in order. *)
Definition add_field (acc : gmap string (list string)) (field : string)
    : gmap string (list string) :=
  match field_of field with
  | Some (name, value) => <[name := default [] (acc !! name) ++ [value]]> acc
  | None => acc
  end.

Definition parse_qs (query : string) : gmap string (list string) :=
  fold_left add_field (split_all "&" query) ∅.

Definition int_of_str (s : string) : result Z :=
  match NilZero.int_of_string s with
  | Some n => Ok (Z.of_int n)
  | None => Raise ValueError
  end.

(** [urllib.parse.quote_plus], which [requests] encodes names and values
    with: letters, digits and [_.-~] stay, a space becomes [+], any other
    byte becomes [%XX]. *)
Definition hex_digit (n : N) : ascii :=
  ascii_of_N (if (n <? 10)%N then n + 48 else n + 55)%N.

Definition is_unreserved (c : ascii) : bool :=
  FacebookPagesStream.is_alnum c
  || existsb (Ascii.eqb c) ["_"; "."; "-"; "~"]%char.

Fixpoint quote_plus (s : string) : string :=
  match s with
  | EmptyString => EmptyString
  | String c s' =>
      if is_unreserved c then String c (quote_plus s')
      else if Ascii.eqb c " " then String "+" (quote_plus s')
      else
        let n := N_of_ascii c in
        String "%" (String (hex_digit (n / 16)) (String (hex_digit (n mod 16))
                                                   (quote_plus s')))
  end.

(** The [name=value] pairs of one parameter: a list gives one pair per
    value. *)
Definition pairs_of (name : string) (v : pval) : list string :=
  match v with
  | PInt n => [(quote_plus name ++ "=" ++ py_str n)%string]
  | PStr x => [(quote_plus name ++ "=" ++ quote_plus x)%string]
  | PList l => map (fun x => (quote_plus name ++ "=" ++ quote_plus x)%string) l
  end.

(** The first occurrence of each name. *)
Fixpoint first_occurrences (seen l : list string) : list string :=
  match l with
  | [] => []
  | x :: l' =>
      if existsb (String.eqb x) seen then first_occurrences seen l'
      else x :: first_occurrences (x :: seen) l'
  end.

(** The order in which the builders fill the dict: the names of the
    token's query as [parse_qs] meets them, then the keys the builders set,
    a key that is already there keeping its place. *)
Definition key_order (token : json) : list string :=
  let link_names :=
    match token with
    | JStr url =>
        if truthy token
        then omap (fun field => fst <$> field_of field)
               (split_all "&" (query_of url))
        else []
    | _ => []
    end in
  first_occurrences []
    (link_names ++ ["since"; "access_token"; "limit"; "fields"; "until"; "metric"]).

(** The URL [requests] prepares: the parameters in the order of the dict,
    after a [?] when there are any. *)
Definition prepared_url (url : string) (token : json) (params : url_params)
    : string :=
  let pairs :=
    flat_map (fun name =>
                match params !! name with
                | Some v => pairs_of name v
                | None => []
                end) (key_order token) in
  match pairs with
  | [] => url
  | _ => (url ++ "?" ++ String.concat "&" pairs)%string
  end.

Definition lib (starting_timestamp : option Z) : pylib :=
  PyLib (fun url => Ok (parse_qs (query_of url)))
        int_of_str
        unquote
        prepared_url
        (fun _ => starting_timestamp).

End PlainLib.

(** ** Servers used to run the loop on concrete inputs *)

Module Fixtures.

Definition config : stream_config :=
  StreamConfig {["1" := "ABCD1234"]} ["page_fans"] None ["id"; "created_time"].

Definition next_url : string :=
  "https://graph.facebook.com/v10.0/1/posts?access_token=ABCD1234&limit=100&after=x".

Definition page (id : string) (next : string) : json :=
  JObj [("data", JList [JObj [("id", JStr id)]]);
        ("paging", JObj [("next", JStr next)])].

(** A server whose every page links to [next_url]: the page fetched with
    [next_url] names [next_url] as its successor. *)
Definition stuck_server (req : FacebookPagesStream.prepared_request) (w : unit)
    : unit * result (result json) :=
  (w, Ok (Ok (page "post" next_url))).

Definition post_row : json := JObj [("id", JStr "post"); ("page_id", JStr "1")].

(** The line logged for the request prepared from [next_url]. *)
Definition next_url_logged : string :=
  "https://graph.facebook.com/v10.0/1/posts?access_token=*****&limit=100&after=x".

(** A server that serves the first page and fails on every request for
    the second one. *)
Definition failing_server (req : FacebookPagesStream.prepared_request) (w : unit)
    : unit * result (result json) :=
  match FacebookPagesStream.req_params req !! "after" with
  | None => (w, Ok (Ok (page "post" next_url)))
  | Some _ => (w, Raise (RequestException "400 Client Error"))
  end.

(** The clock of the examples and the next links of an insights page:
    one whose window ends in the future, one whose window starts less than
    two days ago, one whose window lies well in the past. *)
Definition now : Z := 1700000000.

Definition future_url : string :=
  "https://graph.facebook.com/v10.0/1/insights?since=1600000000&until=1800000000".

Definition stalled_url : string :=
  "https://graph.facebook.com/v10.0/1/insights?since=1699910000&until=1699990000".

Definition past_url : string :=
  "https://graph.facebook.com/v10.0/1/insights?since=1600000000&until=1608035200".

Definition insights_page (next : string) : pydict :=
  [("data", JList []); ("paging", JObj [("next", JStr next)])].

(** One post, one attachment, two sub-attachments. *)
Definition album_posts : list json :=
  [JObj [("id", JStr "p1"); ("created_time", JStr "2021-03-01T10:00:00+0000");
         ("attachments",
          JObj [("data",
                 JList [JObj [("type", JStr "album");
                              ("subattachments",
                               JObj [("data", JList [JObj [("type", JStr "photo")];
                                                     JObj [("type", JStr "video")]])]);
                              ("url", JStr "u")]])])]].

Definition album_response : pydict := [("data", JList album_posts)].

(** Two posts, the first without [to]. *)
Definition tagged_posts : list json :=
  [JObj [("id", JStr "p1"); ("created_time", JStr "t1")];
   JObj [("id", JStr "p2"); ("created_time", JStr "t2");
         ("to", JObj [("data", JList [JObj [("id", JStr "7");
                                            ("name", JStr "Ada")]])])]].

Definition tagged_response : pydict := [("data", JList tagged_posts)].

(** Two [values] entries of an insights metric. *)
Definition mapping_entry : pydict :=
  [("value", JObj [("a", JInt 1); ("b", JInt 2)]);
   ("end_time", JStr "2021-03-02T08:00:00+0000")].

Definition scalar_entry : pydict :=
  [("value", JInt 7); ("end_time", JStr "2021-03-02T08:00:00+0000")].

(** A PageInsights response: one metric with the two entries. *)
Definition page_fans : pydict :=
  [("name", JStr "page_fans"); ("period", JStr "day");
   ("values", JList [JObj mapping_entry; JObj scalar_entry]);
   ("title", JStr "Lifetime Total Likes");
   ("id", JStr "1/insights/page_fans/day")].

Definition page_insights_response : pydict :=
  [("data", JList [JObj page_fans]); ("paging", JObj [])].

(** A PostInsights response: one post with one metric whose entries hold a
    mapping and a number. *)
Definition post_clicks : pydict :=
  [("name", JStr "post_clicks"); ("period", JStr "lifetime");
   ("values", JList [JObj [("value", JObj [("a", JInt 1); ("b", JInt 2)])];
                     JObj [("value", JInt 7)]]);
   ("title", JStr "Clicks"); ("description", JStr "Lifetime clicks");
   ("id", JStr "1_9/insights/post_clicks/lifetime")].

Definition insights_posts : list json :=
  [JObj [("id", JStr "1_9"); ("created_time", JStr "2021-03-01T10:00:00+0000");
         ("insights", JObj [("data", JList [JObj post_clicks])])]].

Definition post_insights_response : pydict := [("data", JList insights_posts)].

End Fixtures.

(** ** The flatteners as the specification words them *)

Module Spec.

(** A row tagged with its parent linkage. *)
Definition tag (parent_info : pydict) (row : json) : json :=
  match row with
  | JObj d => JObj (dict_update d parent_info)
  | _ => row
  end.

(** The entries of [subattachments.data], none when the key is absent. *)
Definition sub_attachments (attachment : pydict) : list json :=
  match dict_get "subattachments" attachment with
  | Some (JObj sub) =>
      match dict_get "data" sub with
      | Some (JList l) => l
      | _ => []
      end
  | _ => []
  end.

(** Each sub-attachment as its own row, then the parent without its
    [subattachments] key. *)
Definition attachment_rows (parent_info : pydict) (attachment : json)
    : list json :=
  match attachment with
  | JObj d =>
      map (tag parent_info) (sub_attachments d)
      ++ [JObj (dict_update (dict_pop "subattachments" d) parent_info)]
  | _ => []
  end.

(** The shape of an attachment of the API: an object whose
    [subattachments], when present, holds a [data] list of objects. *)
Definition attachment_ok (attachment : json) : bool :=
  match attachment with
  | JObj d =>
      match dict_get "subattachments" d with
      | None => true
      | Some (JObj sub) =>
          match dict_get "data" sub with
          | Some (JList l) => forallb is_dict l
          | _ => false
          end
      | Some _ => false
      end
  | _ => false
  end.

(** The parent linkage of a post. *)
Definition parent_info (page_id : string) (post : json) : pydict :=
  match post with
  | JObj rd =>
      [("page_id", JStr page_id);
       ("post_id", default JNull (dict_get "id" rd));
       ("post_created_time", default JNull (dict_get "created_time" rd))]
  | _ => []
  end.

(** The rows of one post: those of its attachments, in order. *)
Definition post_rows (page_id : string) (post : json) : list json :=
  match post with
  | JObj rd =>
      match dict_get "attachments" rd with
      | Some (JObj att) =>
          match dict_get "data" att with
          | Some (JList l) => flat_map (attachment_rows (parent_info page_id post)) l
          | _ => []
          end
      | _ => []
      end
  | _ => []
  end.

(** The shape of a post of the API: an object with [id] and
    [created_time] whose [attachments], when present, holds a [data] list
    of attachments. *)
Definition post_ok (post : json) : bool :=
  match post with
  | JObj rd =>
      dict_mem "id" rd && dict_mem "created_time" rd
      && match dict_get "attachments" rd with
         | None => true
         | Some (JObj att) =>
             match dict_get "data" att with
             | Some (JList l) => forallb attachment_ok l
             | _ => false
             end
         | Some _ => false
         end
  | _ => false
  end.

(** [row] is a dict that holds every entry of [info]. *)
Definition tagged (info : pydict) (row : json) : Prop :=
  exists d, row = JObj d /\ forall k v, dict_get k info = Some v -> dict_get k d = Some v.

(** The metadata of a PageInsights metric: its [name], [period], [title]
    and [id]. *)
Definition metric_metadata (metric : pydict) : pydict :=
  [("name", default JNull (dict_get "name" metric));
   ("period", default JNull (dict_get "period" metric));
   ("title", default JNull (dict_get "title" metric));
   ("id", default JNull (dict_get "id" metric))].

(** The metadata of a PostInsights metric: the linkage to the post, then
    the metric's [name], [period], [title], [description] and [id]. *)
Definition post_metric_metadata (page_id : string) (post metric : pydict)
    : pydict :=
  [("post_id", default JNull (dict_get "id" post));
   ("page_id", JStr page_id);
   ("post_created_time", default JNull (dict_get "created_time" post));
   ("name", default JNull (dict_get "name" metric));
   ("period", default JNull (dict_get "period" metric));
   ("title", default JNull (dict_get "title" metric));
   ("description", default JNull (dict_get "description" metric));
   ("id", default JNull (dict_get "id" metric))].

(** One row per key of a mapping value: [context] is the key, [value] the
    mapped value, then what the row carries of the entry, then the
    metadata. *)
Definition mapping_rows (carried metadata mapping : pydict) : list json :=
  map (fun kv =>
         JObj (("context", JStr (fst kv)) :: ("value", snd kv)
               :: carried ++ metadata))
      mapping.

(** The rows of one [values] entry of PageInsights: a mapping value is
    exploded and carries the entry's [end_time], any other value gives the
    entry merged with the metadata. *)
Definition page_entry_rows (metadata : pydict) (entry : json) : list json :=
  match entry with
  | JObj e =>
      match dict_get "value" e with
      | Some (JObj mapping) =>
          mapping_rows [("end_time", default JNull (dict_get "end_time" e))]
            metadata mapping
      | Some _ => [JObj (dict_update e metadata)]
      | None => []
      end
  | _ => []
  end.

(** The rows of one [values] entry of PostInsights: the same, without
    [end_time] on the rows of a mapping. *)
Definition post_entry_rows (metadata : pydict) (entry : json) : list json :=
  match entry with
  | JObj e =>
      match dict_get "value" e with
      | Some (JObj mapping) => mapping_rows [] metadata mapping
      | Some _ => [JObj (dict_update e metadata)]
      | None => []
      end
  | _ => []
  end.

(** The [values] entries of a metric, none when the key is absent. *)
Definition entries_of (metric : pydict) : list json :=
  match dict_get "values" metric with
  | Some (JList l) => l
  | _ => []
  end.

(** The rows of one PageInsights metric. *)
Definition page_metric_rows (metric : json) : list json :=
  match metric with
  | JObj m => flat_map (page_entry_rows (metric_metadata m)) (entries_of m)
  | _ => []
  end.

(** The rows of one metric of a post. *)
Definition post_metric_rows (page_id : string) (post : pydict) (metric : json)
    : list json :=
  match metric with
  | JObj m =>
      flat_map (post_entry_rows (post_metric_metadata page_id post m))
        (entries_of m)
  | _ => []
  end.

(** The rows of one post of PostInsights: those of the metrics under
    [insights.data], in order. *)
Definition insights_post_rows (page_id : string) (post : json) : list json :=
  match post with
  | JObj p =>
      match dict_get "insights" p with
      | Some (JObj insights) =>
          match dict_get "data" insights with
          | Some (JList metrics) => flat_map (post_metric_rows page_id p) metrics
          | _ => []
          end
      | _ => []
      end
  | _ => []
  end.

(** The shape of a [values] entry of the API: an object with a [value];
    PageInsights reads the [end_time] of an entry whose value is a
    mapping. *)
Definition page_entry_ok (entry : json) : bool :=
  match entry with
  | JObj e =>
      match dict_get "value" e with
      | Some (JObj _) => dict_mem "end_time" e
      | Some _ => true
      | None => false
      end
  | _ => false
  end.

Definition post_entry_ok (entry : json) : bool :=
  match entry with
  | JObj e => dict_mem "value" e
  | _ => false
  end.

(** [values], when present, is a list of entries. *)
Definition values_ok (entry_ok : json -> bool) (metric : pydict) : bool :=
  match dict_get "values" metric with
  | None => true
  | Some (JList l) => forallb entry_ok l
  | Some _ => false
  end.

(** The shape of a metric of the API. *)
Definition page_metric_ok (metric : json) : bool :=
  match metric with
  | JObj m =>
      dict_mem "name" m && dict_mem "period" m && dict_mem "title" m
      && dict_mem "id" m && values_ok page_entry_ok m
  | _ => false
  end.

Definition post_metric_ok (metric : json) : bool :=
  match metric with
  | JObj m =>
      dict_mem "name" m && dict_mem "period" m && dict_mem "title" m
      && dict_mem "description" m && dict_mem "id" m
      && values_ok post_entry_ok m
  | _ => false
  end.

(** The shape of a post of PostInsights: an object with [id],
    [created_time] and the metrics under [insights.data]. *)
Definition insights_post_ok (post : json) : bool :=
  match post with
  | JObj p =>
      dict_mem "id" p && dict_mem "created_time" p
      && match dict_get "insights" p with
         | Some (JObj insights) =>
             match dict_get "data" insights with
             | Some (JList metrics) => forallb post_metric_ok metrics
             | _ => false
             end
         | _ => false
         end
  | _ => false
  end.

End Spec.

(** ** Scripted servers and pages *)

(** A server that plays a script: each request consumes the next scripted
    outcome of [_request_with_backoff]; an exhausted script fails. *)
Definition scripted_server (req : FacebookPagesStream.prepared_request)
    (script : list (result (result json)))
    : list (result (result json)) * result (result json) :=
  match script with
  | [] => ([], Raise (RequestException "no response"))
  | outcome :: rest => (rest, outcome)
  end.

(** A page of the [/posts] endpoint: its posts and, unless it is the last
    one, the link to the next page. *)
Definition posts_page (posts : list pydict) (next : option string) : json :=
  JObj (("data", JList (map JObj posts))
        :: match next with
           | Some url => [("paging", JObj [("next", JStr url)])]
           | None => []
           end).

(** The script of a chain of pages followed by a last page. *)
Definition posts_script (pages : list (list pydict * string))
    (last : list pydict) : list (result (result json)) :=
  map (fun pg => Ok (Ok (posts_page (fst pg) (Some (snd pg))))) pages
  ++ [Ok (Ok (posts_page last None))].

(** No link of the chain is empty or equal to the token of the request
    that fetched it. *)
Fixpoint fresh_links (token : json) (links : list string) : bool :=
  match links with
  | [] => true
  | url :: rest =>
      negb (String.eqb url "") && negb (py_eq (JStr url) token)
      && fresh_links (JStr url) rest
  end.

(** The tokens the loop holds on such a chain: none, or a link. *)
Definition link_or_none (token : json) : Prop :=
  token = JNull \/ exists url, token = JStr url.

(** [row["page_id"] = page_id] on a dict. *)
Definition with_page_id (page_id : string) (row : pydict) : json :=
  JObj (dict_set "page_id" (JStr page_id) row).

(** ** Tagged profiles as the source words them *)

(** The entries of [to.data] of a post, none when the post has no [to]. *)
Definition tagged_profiles (post : pydict) : list json :=
  match dict_get "to" post with
  | Some (JObj to) =>
      match dict_get "data" to with
      | Some (JList l) => l
      | _ => []
      end
  | _ => []
  end.

(** The shape of a post of the [to] field list: an object with [id] and
    [created_time] whose [to], when present, holds a [data] list of
    objects. *)
Definition tagged_post_ok (post : json) : bool :=
  match post with
  | JObj rd =>
      dict_mem "id" rd && dict_mem "created_time" rd
      && match dict_get "to" rd with
         | None => true
         | Some (JObj to) =>
             match dict_get "data" to with
             | Some (JList l) => forallb is_dict l
             | _ => false
             end
         | Some _ => false
         end
  | _ => false
  end.

(** The rows of one post: its tagged profiles with the post's linkage. *)
Definition tagged_profile_rows (page_id : string) (post : json) : list json :=
  match post with
  | JObj rd => map (Spec.tag (Spec.parent_info page_id post)) (tagged_profiles rd)
  | _ => []
  end.

(** ** Tokens made of letters and digits *)

Fixpoint all_alnum (s : string) : bool :=
  match s with
  | EmptyString => true
  | String c s' => FacebookPagesStream.is_alnum c && all_alnum s'
  end.

(** * Properties *)

(** ** Dicts *)

Lemma dict_get_set_eq (k : string) (v : json) (d : pydict) :
  dict_get k (dict_set k v d) = Some v.
Proof.
  induction d as [|[k' v'] d IH]; simpl.
  - by rewrite String.eqb_refl.
  - destruct (String.eqb k k') eqn:E; simpl; rewrite E; [done | exact IH].
Qed.

Lemma dict_get_set_ne (k k' : string) (v : json) (d : pydict) :
  k <> k' -> dict_get k (dict_set k' v d) = dict_get k d.
Proof.
  intros Hne. induction d as [|[k0 v0] d IH]; simpl.
  - destruct (String.eqb_spec k k'); [contradiction | done].
  - destruct (String.eqb_spec k' k0) as [->|Hk0]; simpl.
    + destruct (String.eqb_spec k k0); [contradiction | done].
    + destruct (String.eqb_spec k k0); [done | exact IH].
Qed.

Lemma dict_get_update_None (k : string) (other d : pydict) :
  dict_get k other = None -> dict_get k (dict_update d other) = dict_get k d.
Proof.
  unfold dict_update. revert d.
  induction other as [|[k' v'] other IH]; intros d Hk; simpl in *; [done|].
  destruct (String.eqb_spec k k') as [->|Hne]; [discriminate|].
  rewrite IH by done. by apply dict_get_set_ne.
Qed.

Lemma dict_get_update_Some (k : string) (v : json) (other d : pydict) :
  NoDup (map fst other) -> dict_get k other = Some v ->
  dict_get k (dict_update d other) = Some v.
Proof.
  unfold dict_update. revert d.
  induction other as [|[k' v'] other IH]; intros d Hnd Hk; simpl in *; [done|].
  apply NoDup_cons in Hnd as [Hnotin Hnd].
  destruct (String.eqb_spec k k') as [->|Hne].
  - injection Hk as ->.
    assert (dict_get k' other = None) as Hnone.
    { clear -Hnotin. induction other as [|[k0 v0] other IH]; simpl in *; [done|].
      apply not_elem_of_cons in Hnotin as [Hne Hnotin].
      destruct (String.eqb_spec k' k0); [done | by apply IH]. }
    pose proof (dict_get_update_None k' other (dict_set k' v d) Hnone) as Hu.
    unfold dict_update in Hu. rewrite Hu. apply dict_get_set_eq.
  - by apply IH.
Qed.

Lemma dict_get_pop_ne (k k' : string) (d : pydict) :
  k <> k' -> dict_get k (dict_pop k' d) = dict_get k d.
Proof.
  intros Hne. induction d as [|[k0 v0] d IH]; simpl; [done|].
  destruct (String.eqb_spec k' k0) as [->|Hk0]; simpl.
  - destruct (String.eqb_spec k k0); [contradiction | done].
  - destruct (String.eqb_spec k k0); [done | exact IH].
Qed.

Lemma dict_get_pop_eq (k : string) (d : pydict) :
  NoDup (map fst d) -> dict_get k (dict_pop k d) = None.
Proof.
  induction d as [|[k0 v0] d IH]; simpl; intros Hnd; [done|].
  apply NoDup_cons in Hnd as [Hnotin Hnd].
  destruct (String.eqb_spec k k0) as [->|Hne]; simpl.
  - clear -Hnotin. induction d as [|[k1 v1] d IH]; simpl in *; [done|].
    apply not_elem_of_cons in Hnotin as [Hne Hnotin].
    destruct (String.eqb_spec k0 k1); [done | by apply IH].
  - destruct (String.eqb_spec k k0); [done | by apply IH].
Qed.

(** ** Generators *)

Lemma gen_bind_lift_Ok {A B} (a : A) (k : A -> gen B) :
  gen_bind (gen_lift (Ok a)) k = k a.
Proof. unfold gen_bind. simpl. by destruct (k a). Qed.

Lemma gen_bind_lift_Raise {A B} (e : exc) (k : A -> gen B) :
  gen_bind (gen_lift (Raise e)) k = Gen [] (Raise e).
Proof. reflexivity. Qed.

Lemma gen_bind_ret {A B} (a : A) (k : A -> gen B) :
  gen_bind (gen_ret a) k = k a.
Proof. apply gen_bind_lift_Ok. Qed.

Lemma gen_bind_Ok {A B} (rows : list json) (a : A) (k : A -> gen B) :
  gen_bind (Gen rows (Ok a)) k = Gen (rows ++ yielded (k a)) (outcome (k a)).
Proof. reflexivity. Qed.

Lemma gen_bind_Raise {A B} (rows : list json) (e : exc) (k : A -> gen B) :
  gen_bind (Gen rows (Raise e)) k = Gen rows (Raise e).
Proof. reflexivity. Qed.

Create Rewrite HintDb gen.
#[local] Hint Rewrite @gen_bind_lift_Ok @gen_bind_lift_Raise @gen_bind_ret
  @gen_bind_Ok @gen_bind_Raise : gen.

(** Runs a generator body through the steps whose outcome is known. *)
Ltac gen_step := repeat (progress (autorewrite with gen; simpl)).

Lemma gen_for_rows {A} (rows : A -> list json) (body : A -> gen unit) (xs : list A) :
  Forall (fun x => body x = Gen (rows x) (Ok tt)) xs ->
  gen_for xs body = Gen (flat_map rows xs) (Ok tt).
Proof.
  induction 1 as [|x xs Hx _ IH]; simpl; [done|].
  unfold gen_bind. by rewrite Hx, IH.
Qed.

Lemma gen_for_yield {A} (f : A -> json) (xs : list A) :
  gen_for xs (fun x => gen_yield (f x)) = Gen (map f xs) (Ok tt).
Proof.
  induction xs as [|x xs IH]; simpl; [done|].
  unfold gen_bind. by rewrite IH.
Qed.

(** ** PostAttachments: nested explosion *)

Lemma dict_pop_absent (k : string) (d : pydict) :
  dict_get k d = None -> dict_pop k d = d.
Proof.
  induction d as [|[k0 v0] d IH]; simpl; [done|].
  destruct (String.eqb_spec k k0); [discriminate|].
  intros H. by rewrite IH.
Qed.

Lemma tag_rows (parent_info : pydict) (l : list json) :
  forallb is_dict l = true ->
  gen_for l (fun sub_attachment =>
    try! sub_attachment := py_update sub_attachment parent_info in
    gen_yield sub_attachment)
  = Gen (map (Spec.tag parent_info) l) (Ok tt).
Proof.
  intros Hl.
  rewrite (gen_for_rows (fun s => [Spec.tag parent_info s])).
  - reflexivity.
  - apply Forall_forall. intros s Hs.
    rewrite forallb_forall in Hl.
    specialize (Hl s (proj1 (list_elem_of_In _ _) Hs)).
    destruct s; try discriminate. reflexivity.
Qed.

Lemma attachment_rows_spec (parent_info : pydict) (attachment : json) :
  Spec.attachment_ok attachment = true ->
  PostAttachments.attachment_rows parent_info attachment
  = Gen (Spec.attachment_rows parent_info attachment) (Ok tt).
Proof.
  destruct attachment as [| | | | |d]; try discriminate.
  unfold Spec.attachment_ok, PostAttachments.attachment_rows,
    Spec.attachment_rows, Spec.sub_attachments.
  simpl py_in. unfold dict_mem.
  destruct (dict_get "subattachments" d) as [sub|] eqn:Hsub.
  - destruct sub as [| | | | |sd]; try discriminate.
    destruct (dict_get "data" sd) as [[| | | |l|]|] eqn:Hdata; try discriminate.
    intros Hl. gen_step. rewrite Hsub. gen_step. rewrite Hdata. gen_step.
    rewrite (tag_rows parent_info l Hl). gen_step.
    unfold dict_mem. rewrite Hsub. gen_step. by rewrite app_nil_r.
  - intros _. gen_step. by rewrite (dict_pop_absent _ _ Hsub).
Qed.

Lemma tagged_update (info d : pydict) :
  NoDup (map fst info) -> Spec.tagged info (JObj (dict_update d info)).
Proof.
  intros Hnd. exists (dict_update d info). split; [done|].
  intros k v Hk. by apply dict_get_update_Some.
Qed.

Lemma attachment_rows_tagged (info : pydict) (attachment row : json) :
  NoDup (map fst info) ->
  Spec.attachment_ok attachment = true ->
  In row (Spec.attachment_rows info attachment) ->
  Spec.tagged info row.
Proof.
  intros Hnd Hok Hin.
  destruct attachment as [| | | | |d]; try discriminate.
  unfold Spec.attachment_rows in Hin. apply in_app_or in Hin as [Hin|Hin].
  - apply in_map_iff in Hin as (s & <- & Hs).
    unfold Spec.attachment_ok, Spec.sub_attachments in *.
    destruct (dict_get "subattachments" d) as [[| | | | |sd]|]; try done.
    destruct (dict_get "data" sd) as [[| | | |l|]|]; try done.
    rewrite forallb_forall in Hok. specialize (Hok s Hs).
    destruct s; try discriminate. by apply tagged_update.
  - destruct Hin as [<-|[]]. by apply tagged_update.
Qed.

Lemma parent_info_NoDup (a b c : json) :
  NoDup (map fst [("page_id", a); ("post_id", b); ("post_created_time", c)]).
Proof. simpl. by apply (bool_decide_unpack _). Qed.

Lemma post_rows_spec (page_id : string) (post : json) :
  Spec.post_ok post = true ->
  PostAttachments.post_rows page_id post
  = Gen (Spec.post_rows page_id post) (Ok tt).
Proof.
  destruct post as [| | | | |rd]; try discriminate.
  unfold Spec.post_ok, PostAttachments.post_rows, Spec.post_rows, Spec.parent_info,
    dict_mem.
  simpl py_getitem. simpl py_in. unfold dict_mem.
  destruct (dict_get "id" rd) as [post_id|]; [|discriminate].
  destruct (dict_get "created_time" rd) as [created_time|]; [|discriminate].
  simpl default.
  destruct (dict_get "attachments" rd) as [[| | | | |att]|] eqn:Hatt; try discriminate.
  - destruct (dict_get "data" att) as [[| | | |l|]|] eqn:Hdata; try discriminate.
    simpl. intros Hl. gen_step. rewrite Hdata. gen_step.
    apply gen_for_rows, Forall_forall. intros a Ha.
    apply attachment_rows_spec.
    rewrite forallb_forall in Hl. apply Hl. by apply list_elem_of_In.
  - intros _. by gen_step.
Qed.

(** [C6] For a PostAttachments response whose posts have the API's shape,
    [parse_response] yields, post by post and attachment by attachment, each
    sub-attachment as its own row followed by the parent attachment without
    its [subattachments] key; every row of a post carries that post's
    [page_id], [post_id] and [post_created_time]; the parent row has no
    [subattachments] key; and one post with one attachment holding two
    sub-attachments yields exactly three rows, the parent last. *)
Theorem post_attachments_nested_explosion
    (page_id : string) (resp : pydict) (posts : list json) :
  dict_get "data" resp = Some (JList posts) ->
  forallb Spec.post_ok posts = true ->
  PostAttachments.parse_response page_id (JObj resp)
  = Gen (flat_map (Spec.post_rows page_id) posts) (Ok tt)
  /\ (forall post row,
        In post posts -> In row (Spec.post_rows page_id post) ->
        Spec.tagged (Spec.parent_info page_id post) row)
  /\ (forall info d,
        NoDup (map fst d) -> dict_get "subattachments" info = None ->
        dict_get "subattachments"
          (dict_update (dict_pop "subattachments" d) info) = None)
  /\ (forall rd att d sub s1 s2,
        posts = [JObj rd] ->
        dict_get "attachments" rd = Some (JObj att) ->
        dict_get "data" att = Some (JList [JObj d]) ->
        dict_get "subattachments" d = Some (JObj sub) ->
        dict_get "data" sub = Some (JList [JObj s1; JObj s2]) ->
        let info := Spec.parent_info page_id (JObj rd) in
        yielded (PostAttachments.parse_response page_id (JObj resp))
        = [JObj (dict_update s1 info); JObj (dict_update s2 info);
           JObj (dict_update (dict_pop "subattachments" d) info)]).
Proof.
  intros Hdata Hposts.
  assert (PostAttachments.parse_response page_id (JObj resp)
          = Gen (flat_map (Spec.post_rows page_id) posts) (Ok tt)) as Hrows.
  { unfold PostAttachments.parse_response. simpl py_getitem. rewrite Hdata.
    gen_step. apply gen_for_rows, Forall_forall. intros post Hpost.
    apply post_rows_spec.
    rewrite forallb_forall in Hposts. apply Hposts. by apply list_elem_of_In. }
  split; [exact Hrows|]. split; [|split].
  - intros post row Hpost Hrow.
    rewrite forallb_forall in Hposts. specialize (Hposts post Hpost).
    destruct post as [| | | | |rd]; try discriminate.
    unfold Spec.post_rows in Hrow. unfold Spec.post_ok in Hposts.
    destruct (dict_get "attachments" rd) as [[| | | | |att]|]; try done.
    destruct (dict_get "data" att) as [[| | | |l|]|]; try done.
    apply andb_true_iff in Hposts as [_ Hl].
    apply in_flat_map in Hrow as (a & Ha & Hrow).
    rewrite forallb_forall in Hl.
    eapply attachment_rows_tagged; [apply parent_info_NoDup | by apply Hl | done].
  - intros info d Hnd Hinfo.
    rewrite dict_get_update_None by done. by apply dict_get_pop_eq.
  - intros rd att d sub s1 s2 -> Hatt Hatts Hsub Hsubs info.
    rewrite Hrows. simpl. unfold Spec.post_rows. rewrite Hatt, Hatts. simpl.
    unfold Spec.sub_attachments. rewrite Hsub, Hsubs. reflexivity.
Qed.

Lemma post_attachments_nested_explosion_witness :
  dict_get "data" Fixtures.album_response = Some (JList Fixtures.album_posts)
  /\ forallb Spec.post_ok Fixtures.album_posts = true
  /\ PostAttachments.parse_response "42" (JObj Fixtures.album_response)
     = Gen [JObj [("type", JStr "photo"); ("page_id", JStr "42");
                  ("post_id", JStr "p1");
                  ("post_created_time", JStr "2021-03-01T10:00:00+0000")];
            JObj [("type", JStr "video"); ("page_id", JStr "42");
                  ("post_id", JStr "p1");
                  ("post_created_time", JStr "2021-03-01T10:00:00+0000")];
            JObj [("type", JStr "album"); ("url", JStr "u");
                  ("page_id", JStr "42"); ("post_id", JStr "p1");
                  ("post_created_time", JStr "2021-03-01T10:00:00+0000")]]
           (Ok tt).
Proof.
  split; [reflexivity|]. split; [reflexivity|].
  exact (proj1 (post_attachments_nested_explosion "42" Fixtures.album_response
                  Fixtures.album_posts eq_refl eq_refl)).
Defined.

(** ** Insights: mapping and scalar values *)

Lemma gen_for_singletons {A} (f : A -> json) (body : A -> gen unit) (xs : list A) :
  (forall x, In x xs -> body x = Gen [f x] (Ok tt)) ->
  gen_for xs body = Gen (map f xs) (Ok tt).
Proof.
  intros Hbody. rewrite (gen_for_rows (fun x => [f x])).
  - reflexivity.
  - apply Forall_forall. intros x Hx. apply Hbody. by apply list_elem_of_In.
Qed.

Lemma metric_base_NoDup (a b c d : json) :
  NoDup (map fst [("name", a); ("period", b); ("title", c); ("id", d)]).
Proof. simpl. by apply (bool_decide_unpack _). Qed.

Lemma post_metric_base_NoDup (a b c d e f g h : json) :
  NoDup (map fst [("post_id", a); ("page_id", b); ("post_created_time", c);
                  ("name", d); ("period", e); ("title", f); ("description", g);
                  ("id", h)]).
Proof. simpl. by apply (bool_decide_unpack _). Qed.

Lemma dict_mem_update_None (k : string) (other d : pydict) :
  dict_get k other = None -> dict_mem k (dict_update d other) = dict_mem k d.
Proof. intros H. unfold dict_mem. by rewrite dict_get_update_None. Qed.

Lemma forallb_In {A} (f : A -> bool) (l : list A) (x : A) :
  forallb f l = true -> In x l -> f x = true.
Proof. intros Hl. by apply forallb_forall. Qed.

Lemma page_entry_rows_spec (a b c d : json) (entry : json) :
  Spec.page_entry_ok entry = true ->
  PageInsights.values_rows
    [("name", a); ("period", b); ("title", c); ("id", d)] entry
  = Gen (Spec.page_entry_rows
           [("name", a); ("period", b); ("title", c); ("id", d)] entry)
        (Ok tt).
Proof.
  destruct entry as [| | | | |e]; try discriminate.
  unfold Spec.page_entry_ok, Spec.page_entry_rows, PageInsights.values_rows,
    dict_mem.
  simpl py_getitem.
  destruct (dict_get "value" e) as [value|]; [|discriminate].
  destruct value as [| | | | |mapping]; intros Hok; gen_step; try reflexivity.
  destruct (dict_get "end_time" e) as [end_time|]; [|discriminate].
  apply gen_for_singletons. intros kv _. by gen_step.
Qed.

Lemma post_entry_rows_spec (a b c d e f g h : json) (entry : json) :
  Spec.post_entry_ok entry = true ->
  PostInsights.values_rows
    [("post_id", a); ("page_id", b); ("post_created_time", c); ("name", d);
     ("period", e); ("title", f); ("description", g); ("id", h)] entry
  = Gen (Spec.post_entry_rows
           [("post_id", a); ("page_id", b); ("post_created_time", c);
            ("name", d); ("period", e); ("title", f); ("description", g);
            ("id", h)] entry)
        (Ok tt).
Proof.
  destruct entry as [| | | | |en]; try discriminate.
  unfold Spec.post_entry_ok, Spec.post_entry_rows, PostInsights.values_rows,
    dict_mem.
  simpl py_getitem.
  destruct (dict_get "value" en) as [value|]; [|discriminate].
  destruct value as [| | | | |mapping]; intros _; gen_step; try reflexivity.
  by apply gen_for_singletons.
Qed.

Lemma page_metric_rows_spec (metric : json) :
  Spec.page_metric_ok metric = true ->
  PageInsights.metric_rows metric
  = Gen (Spec.page_metric_rows metric) (Ok tt).
Proof.
  destruct metric as [| | | | |m]; try discriminate.
  unfold Spec.page_metric_ok, Spec.page_metric_rows, Spec.metric_metadata,
    Spec.values_ok, Spec.entries_of, PageInsights.metric_rows, dict_mem.
  simpl py_getitem. simpl py_in. unfold dict_mem.
  destruct (dict_get "name" m) as [name|]; [|discriminate].
  destruct (dict_get "period" m) as [period|]; [|discriminate].
  destruct (dict_get "title" m) as [title|]; [|discriminate].
  destruct (dict_get "id" m) as [id|]; [|discriminate].
  simpl default.
  destruct (dict_get "values" m) as [[| | | |entries|]|]; try discriminate;
    simpl; intros Hok; gen_step; [|reflexivity].
  apply gen_for_rows, Forall_forall. intros entry Hentry.
  apply page_entry_rows_spec, (forallb_In _ _ _ Hok).
  by apply list_elem_of_In.
Qed.

Lemma post_metric_rows_spec (page_id : string) (post : pydict)
    (post_id created_time : json) (metric : json) :
  dict_get "id" post = Some post_id ->
  dict_get "created_time" post = Some created_time ->
  Spec.post_metric_ok metric = true ->
  PostInsights.insight_rows page_id (JObj post) metric
  = Gen (Spec.post_metric_rows page_id post metric) (Ok tt).
Proof.
  intros Hid Htime.
  destruct metric as [| | | | |m]; try discriminate.
  unfold Spec.post_metric_ok, Spec.post_metric_rows, Spec.post_metric_metadata,
    Spec.values_ok, Spec.entries_of, PostInsights.insight_rows, dict_mem.
  simpl py_getitem. simpl py_in. unfold dict_mem. rewrite Hid, Htime.
  destruct (dict_get "name" m) as [name|]; [|discriminate].
  destruct (dict_get "period" m) as [period|]; [|discriminate].
  destruct (dict_get "title" m) as [title|]; [|discriminate].
  destruct (dict_get "description" m) as [description|]; [|discriminate].
  destruct (dict_get "id" m) as [id|]; [|discriminate].
  simpl default.
  destruct (dict_get "values" m) as [[| | | |entries|]|]; try discriminate;
    simpl; intros Hok; gen_step; [|reflexivity].
  apply gen_for_rows, Forall_forall. intros entry Hentry.
  apply post_entry_rows_spec, (forallb_In _ _ _ Hok).
  by apply list_elem_of_In.
Qed.

Lemma insights_post_rows_spec (page_id : string) (post : json) :
  Spec.insights_post_ok post = true ->
  PostInsights.post_rows page_id post
  = Gen (Spec.insights_post_rows page_id post) (Ok tt).
Proof.
  destruct post as [| | | | |p]; try discriminate.
  unfold Spec.insights_post_ok, Spec.insights_post_rows,
    PostInsights.post_rows, dict_mem.
  simpl py_getitem.
  destruct (dict_get "id" p) as [post_id|] eqn:Hid; [|discriminate].
  destruct (dict_get "created_time" p) as [created_time|] eqn:Htime;
    [|discriminate].
  destruct (dict_get "insights" p) as [[| | | | |insights]|]; try discriminate.
  simpl py_getitem.
  destruct (dict_get "data" insights) as [[| | | |metrics|]|] eqn:Hmetrics;
    try discriminate.
  simpl. intros Hok. gen_step. rewrite Hmetrics. gen_step.
  apply gen_for_rows, Forall_forall. intros metric Hmetric.
  apply (post_metric_rows_spec page_id p post_id created_time metric Hid Htime),
    (forallb_In _ _ _ Hok).
  by apply list_elem_of_In.
Qed.

(** [C7] On a PageInsights response whose metrics have the API's shape,
    [parse_response] yields, metric by metric and entry by entry, the rows of
    each [values] entry; PostInsights does the same post by post for the
    metrics under [insights.data].  An entry whose [value] is a mapping
    gives one row per key, in order, holding [context] = the key, [value] =
    the mapped value and the metric's [name], [period], [title] and [id]
    (PageInsights: also the entry's [end_time]; PostInsights: also the
    post's [post_id], [page_id], [post_created_time] and the metric's
    [description]).  An entry whose [value] is not a mapping gives exactly
    one row, the entry merged with that metadata: it keeps the entry's
    [value], gains no [context] key and holds every metadata field. *)
Theorem insights_value_explosion
    (page_id : string) (resp : pydict) (data : list json) :
  dict_get "data" resp = Some (JList data) ->
  (forallb Spec.page_metric_ok data = true ->
   PageInsights.parse_response (JObj resp)
   = Gen (flat_map Spec.page_metric_rows data) (Ok tt))
  /\ (forallb Spec.insights_post_ok data = true ->
      PostInsights.parse_response page_id (JObj resp)
      = Gen (flat_map (Spec.insights_post_rows page_id) data) (Ok tt))
  /\ (forall (post metric entry : pydict) (value : json),
      dict_get "value" entry = Some value ->
      let base := Spec.metric_metadata metric in
      let post_base := Spec.post_metric_metadata page_id post metric in
      (forall mapping,
          value = JObj mapping ->
          Spec.page_entry_rows base (JObj entry)
          = map (fun kv =>
                   JObj [("context", JStr (fst kv)); ("value", snd kv);
                         ("end_time", default JNull (dict_get "end_time" entry));
                         ("name", default JNull (dict_get "name" metric));
                         ("period", default JNull (dict_get "period" metric));
                         ("title", default JNull (dict_get "title" metric));
                         ("id", default JNull (dict_get "id" metric))])
                mapping
          /\ Spec.post_entry_rows post_base (JObj entry)
             = map (fun kv =>
                      JObj [("context", JStr (fst kv)); ("value", snd kv);
                            ("post_id", default JNull (dict_get "id" post));
                            ("page_id", JStr page_id);
                            ("post_created_time",
                             default JNull (dict_get "created_time" post));
                            ("name", default JNull (dict_get "name" metric));
                            ("period", default JNull (dict_get "period" metric));
                            ("title", default JNull (dict_get "title" metric));
                            ("description",
                             default JNull (dict_get "description" metric));
                            ("id", default JNull (dict_get "id" metric))])
                   mapping)
      /\ (is_dict value = false ->
          Spec.page_entry_rows base (JObj entry)
          = [JObj (dict_update entry base)]
          /\ Spec.post_entry_rows post_base (JObj entry)
             = [JObj (dict_update entry post_base)]
          /\ (forall merged, merged = base \/ merged = post_base ->
              dict_get "value" (dict_update entry merged) = Some value
              /\ dict_mem "context" (dict_update entry merged)
                 = dict_mem "context" entry
              /\ forall k v, dict_get k merged = Some v ->
                             dict_get k (dict_update entry merged) = Some v))).
Proof.
  intros Hdata. split; [|split].
  - intros Hok. unfold PageInsights.parse_response. simpl py_getitem.
    rewrite Hdata. gen_step.
    apply gen_for_rows, Forall_forall. intros metric Hmetric.
    apply page_metric_rows_spec, (forallb_In _ _ _ Hok).
    by apply list_elem_of_In.
  - intros Hok. unfold PostInsights.parse_response. simpl py_getitem.
    rewrite Hdata. gen_step.
    apply gen_for_rows, Forall_forall. intros post Hpost.
    apply insights_post_rows_spec, (forallb_In _ _ _ Hok).
    by apply list_elem_of_In.
  - intros post metric entry value Hvalue base post_base. split.
    + intros mapping ->.
      unfold Spec.page_entry_rows, Spec.post_entry_rows. by rewrite Hvalue.
    + intros Hscalar. split; [|split].
      * unfold Spec.page_entry_rows. rewrite Hvalue.
        by destruct value.
      * unfold Spec.post_entry_rows. rewrite Hvalue.
        by destruct value.
      * intros merged Hmerged. split; [|split].
        -- rewrite dict_get_update_None; [done|]. by destruct Hmerged as [->| ->].
        -- apply dict_mem_update_None. by destruct Hmerged as [->| ->].
        -- intros k v Hk. apply dict_get_update_Some; [|done].
           destruct Hmerged as [->| ->];
             [apply metric_base_NoDup | apply post_metric_base_NoDup].
Qed.

Lemma insights_value_explosion_witness :
  (dict_get "data" Fixtures.page_insights_response
   = Some (JList [JObj Fixtures.page_fans])
   /\ forallb Spec.page_metric_ok [JObj Fixtures.page_fans] = true
   /\ PageInsights.parse_response (JObj Fixtures.page_insights_response)
      = Gen [JObj [("context", JStr "a"); ("value", JInt 1);
                   ("end_time", JStr "2021-03-02T08:00:00+0000");
                   ("name", JStr "page_fans"); ("period", JStr "day");
                   ("title", JStr "Lifetime Total Likes");
                   ("id", JStr "1/insights/page_fans/day")];
             JObj [("context", JStr "b"); ("value", JInt 2);
                   ("end_time", JStr "2021-03-02T08:00:00+0000");
                   ("name", JStr "page_fans"); ("period", JStr "day");
                   ("title", JStr "Lifetime Total Likes");
                   ("id", JStr "1/insights/page_fans/day")];
             JObj [("value", JInt 7);
                   ("end_time", JStr "2021-03-02T08:00:00+0000");
                   ("name", JStr "page_fans"); ("period", JStr "day");
                   ("title", JStr "Lifetime Total Likes");
                   ("id", JStr "1/insights/page_fans/day")]]
            (Ok tt))
  /\ (dict_get "data" Fixtures.post_insights_response
      = Some (JList Fixtures.insights_posts)
      /\ forallb Spec.insights_post_ok Fixtures.insights_posts = true
      /\ PostInsights.parse_response "42" (JObj Fixtures.post_insights_response)
         = Gen [JObj [("context", JStr "a"); ("value", JInt 1);
                      ("post_id", JStr "1_9"); ("page_id", JStr "42");
                      ("post_created_time", JStr "2021-03-01T10:00:00+0000");
                      ("name", JStr "post_clicks"); ("period", JStr "lifetime");
                      ("title", JStr "Clicks");
                      ("description", JStr "Lifetime clicks");
                      ("id", JStr "1_9/insights/post_clicks/lifetime")];
                JObj [("context", JStr "b"); ("value", JInt 2);
                      ("post_id", JStr "1_9"); ("page_id", JStr "42");
                      ("post_created_time", JStr "2021-03-01T10:00:00+0000");
                      ("name", JStr "post_clicks"); ("period", JStr "lifetime");
                      ("title", JStr "Clicks");
                      ("description", JStr "Lifetime clicks");
                      ("id", JStr "1_9/insights/post_clicks/lifetime")];
                JObj [("value", JInt 7);
                      ("post_id", JStr "1_9"); ("page_id", JStr "42");
                      ("post_created_time", JStr "2021-03-01T10:00:00+0000");
                      ("name", JStr "post_clicks"); ("period", JStr "lifetime");
                      ("title", JStr "Clicks");
                      ("description", JStr "Lifetime clicks");
                      ("id", JStr "1_9/insights/post_clicks/lifetime")]]
               (Ok tt))
  /\ (dict_get "value" Fixtures.scalar_entry = Some (JInt 7)
      /\ is_dict (JInt 7) = false
      /\ dict_get "value"
           (dict_update Fixtures.scalar_entry
              (Spec.metric_metadata Fixtures.page_fans))
         = Some (JInt 7)
      /\ dict_mem "context"
           (dict_update Fixtures.scalar_entry
              (Spec.metric_metadata Fixtures.page_fans))
         = false).
Proof.
  split; [|split].
  - split; [reflexivity|]. split; [reflexivity|].
    exact (proj1 (insights_value_explosion "1" Fixtures.page_insights_response
                    [JObj Fixtures.page_fans] eq_refl) eq_refl).
  - split; [reflexivity|]. split; [reflexivity|].
    exact (proj1 (proj2 (insights_value_explosion "42"
                           Fixtures.post_insights_response
                           Fixtures.insights_posts eq_refl)) eq_refl).
  - split; [reflexivity|]. split; [reflexivity|].
    pose proof (proj2 (proj2
      (insights_value_explosion "1" Fixtures.page_insights_response
         [JObj Fixtures.page_fans] eq_refl))
      [] Fixtures.page_fans Fixtures.scalar_entry (JInt 7) eq_refl) as Hentry.
    pose proof (proj2 (proj2 (proj2 Hentry eq_refl))
                  (Spec.metric_metadata Fixtures.page_fans)
                  (or_introl eq_refl)) as Hrow.
    exact (conj (proj1 Hrow) (proj1 (proj2 Hrow))).
Defined.

(** ** The pagination loop: what a turn does *)

Section loop_turns.
Import RequestRecords.
Context {World Response : Type}.
Variable prepare_request :
  World -> option page_partition -> json ->
  result (FacebookPagesStream.prepared_request * string).
Variable request_with_backoff :
  FacebookPagesStream.prepared_request -> World -> World * result Response.
Variable parse_response : World -> Response -> gen unit.
Variable get_next_page_token : World -> Response -> json -> result json.
Variable prepare_info : World -> option page_partition -> json -> list string.

Abbreviation iteration :=
  (iteration prepare_request request_with_backoff parse_response get_next_page_token
     prepare_info).

Variable partition : option page_partition.
Variable st : loop_state (World := World).
Variable req : FacebookPagesStream.prepared_request.
Variable line : string.
Hypothesis Hprepare :
  prepare_request (world st) partition (next_page_token st) = Ok (req, line).

(** The state once the request has been sent. *)
Abbreviation after_request w :=
  (set_world w
     (sent req (logged (LogInfo line) (logged_info prepare_info partition st)))).

(** A page whose next token is missing or falsy ends the loop. *)
Lemma iteration_last_page (w : World) (resp : Response) (tok : json) :
  request_with_backoff req (world st) = (w, Ok resp) ->
  outcome (parse_response w resp) = Ok tt ->
  get_next_page_token w resp (next_page_token st) = Ok tok ->
  truthy tok = false ->
  iteration partition st
  = (set_token tok (emit (yielded (parse_response w resp)) (after_request w)),
     Finished).
Proof.
  intros Hreq Hparse Hnext Htok.
  unfold RequestRecords.iteration, try_body.
    cbn [logged_info world next_page_token]. rewrite Hprepare.
  cbn -[truthy py_eq]. rewrite Hreq, Hparse. cbn -[truthy py_eq].
  by rewrite Hnext, Htok.
Qed.

(** A page with a fresh truthy token keeps the loop going. *)
Lemma iteration_next_page (w : World) (resp : Response) (tok : json) :
  request_with_backoff req (world st) = (w, Ok resp) ->
  outcome (parse_response w resp) = Ok tt ->
  get_next_page_token w resp (next_page_token st) = Ok tok ->
  truthy tok = true ->
  py_eq tok (next_page_token st) = false ->
  iteration partition st
  = (set_token tok (emit (yielded (parse_response w resp)) (after_request w)),
     Running).
Proof.
  intros Hreq Hparse Hnext Htok Hneq.
  unfold RequestRecords.iteration, try_body.
    cbn [logged_info world next_page_token]. rewrite Hprepare.
  cbn -[truthy py_eq]. rewrite Hreq, Hparse. cbn -[truthy py_eq].
  by rewrite Hnext, Htok, Hneq.
Qed.

(** A page whose next token repeats the one it was fetched with: the
    [RuntimeError] is caught and logged, and since the token is truthy
    the handler leaves [finished] false. *)
Lemma iteration_loop_detected (w : World) (resp : Response) (tok : json) :
  request_with_backoff req (world st) = (w, Ok resp) ->
  outcome (parse_response w resp) = Ok tt ->
  get_next_page_token w resp (next_page_token st) = Ok tok ->
  truthy tok = true ->
  py_eq tok (next_page_token st) = true ->
  iteration partition st
  = (logged (LogWarning (RuntimeError tok))
       (set_token tok (emit (yielded (parse_response w resp)) (after_request w))),
     Running).
Proof.
  intros Hreq Hparse Hnext Htok Heq.
  unfold RequestRecords.iteration, try_body.
    cbn [logged_info world next_page_token]. rewrite Hprepare.
  cbn -[truthy py_eq]. rewrite Hreq, Hparse. cbn -[truthy py_eq].
  rewrite Hnext, Htok, Heq. cbn -[truthy py_eq]. by rewrite Htok.
Qed.

(** A request that fails: logged; the loop stops only when the token the
    request was prepared from is falsy. *)
Lemma iteration_request_failed (w : World) (e : exc) :
  request_with_backoff req (world st) = (w, Raise e) ->
  iteration partition st
  = (logged (LogWarning e) (after_request w),
     if truthy (next_page_token st) then Running else Finished).
Proof.
  intros Hreq. unfold RequestRecords.iteration, try_body.
    cbn [logged_info world next_page_token]. rewrite Hprepare.
  cbn -[truthy py_eq]. rewrite Hreq. cbn -[truthy py_eq].
  by destruct (truthy (next_page_token st)).
Qed.

(** A page whose parse fails: the rows yielded before the failure are
    emitted; the loop stops only when the token is falsy. *)
Lemma iteration_parse_failed (w : World) (resp : Response) (e : exc) :
  request_with_backoff req (world st) = (w, Ok resp) ->
  outcome (parse_response w resp) = Raise e ->
  iteration partition st
  = (logged (LogWarning e) (emit (yielded (parse_response w resp)) (after_request w)),
     if truthy (next_page_token st) then Running else Finished).
Proof.
  intros Hreq Hparse. unfold RequestRecords.iteration, try_body.
    cbn [logged_info world next_page_token]. rewrite Hprepare. cbn -[truthy py_eq]. rewrite Hreq, Hparse.
  cbn -[truthy py_eq]. by destruct (truthy (next_page_token st)).
Qed.

End loop_turns.

(** A turn that leaves the loop running is followed by the rest of the
    loop. *)
Lemma loop_continue {World Response : Type}
    prepare_request request_with_backoff parse_response get_next_page_token
    prepare_info
    (partition : option page_partition) (st st' : RequestRecords.loop_state)
    (fuel : nat) :
  RequestRecords.iteration (World := World) (Response := Response)
    prepare_request request_with_backoff parse_response get_next_page_token
    prepare_info partition st = (st', RequestRecords.Running) ->
  RequestRecords.loop
    prepare_request request_with_backoff parse_response get_next_page_token
    prepare_info (S fuel) partition st
  = RequestRecords.loop
      prepare_request request_with_backoff parse_response get_next_page_token
      prepare_info fuel partition st'.
Proof. intros H. simpl. by rewrite H. Qed.

(** An exception of [prepare_request] leaves the loop: nothing is sent or
    emitted in that turn, and the log holds the INFO lines written before
    the exception. *)
Lemma loop_prepare_raises {World Response : Type}
    prepare_request request_with_backoff parse_response get_next_page_token
    prepare_info
    (partition : option page_partition) (st : RequestRecords.loop_state) (e : exc)
    (fuel : nat) :
  prepare_request (RequestRecords.world st) partition
    (RequestRecords.next_page_token st) = Raise e ->
  RequestRecords.loop (World := World) (Response := Response)
    prepare_request request_with_backoff parse_response get_next_page_token
    prepare_info (S fuel) partition st
  = (RequestRecords.logged_info prepare_info partition st,
     RequestRecords.Propagated e).
Proof.
  intros H. simpl. unfold RequestRecords.iteration.
  cbn [RequestRecords.logged_info RequestRecords.world
         RequestRecords.next_page_token].
  by rewrite H.
Qed.

(** ** The loop on a server that repeats its next link *)

Section scripted_servers.
Import RequestRecords.

Abbreviation posts_iteration server :=
  (iteration (posts_prepare_request (PlainLib.lib None) Fixtures.config) server
     (posts_parse_response (Some (Partition "1"))) base_get_next_page_token
     (stream_prepare_info Fixtures.config) (Some (Partition "1"))).
Abbreviation posts_loop server :=
  (loop (posts_prepare_request (PlainLib.lib None) Fixtures.config) server
     (posts_parse_response (Some (Partition "1"))) base_get_next_page_token
     (stream_prepare_info Fixtures.config)).

(** Once the token is the repeated link, a turn sends it again, emits the
    page's row again and leaves the loop running with the same token. *)
Lemma stuck_turn (st : loop_state (World := unit)) :
  next_page_token st = JStr Fixtures.next_url ->
  exists st',
    posts_iteration Fixtures.stuck_server st = (st', Running)
    /\ next_page_token st' = JStr Fixtures.next_url
    /\ map fst (requests st') = map fst (requests st) ++ [JStr Fixtures.next_url]
    /\ emitted st' = emitted st ++ [Fixtures.post_row].
Proof.
  destruct st as [tok [] em rq lg]. simpl. intros ->.
  eexists. split.
  - eapply iteration_loop_detected.
    + vm_compute. reflexivity.
    + reflexivity.
    + reflexivity.
    + reflexivity.
    + reflexivity.
    + reflexivity.
  - simpl. split; [done|]. split; [|done].
    by rewrite map_app.
Qed.

Lemma stuck_loop (n : nat) (st : loop_state (World := unit)) :
  next_page_token st = JStr Fixtures.next_url ->
  exists st',
    posts_loop Fixtures.stuck_server n (Some (Partition "1")) st = (st', Running)
    /\ map fst (requests st')
       = map fst (requests st) ++ repeat (JStr Fixtures.next_url) n
    /\ emitted st' = emitted st ++ repeat Fixtures.post_row n.
Proof.
  revert st. induction n as [|n IH]; intros st Htok.
  - exists st. simpl. by rewrite !app_nil_r.
  - destruct (stuck_turn st Htok) as (st1 & Hturn & Htok1 & Hreq1 & Hem1).
    destruct (IH st1 Htok1) as (st' & Hloop & Hreq & Hem).
    exists st'. split; [|split].
    + by rewrite (loop_continue _ _ _ _ _ _ _ _ _ Hturn).
    + rewrite Hreq, Hreq1. by rewrite <- app_assoc.
    + rewrite Hem, Hem1. by rewrite <- app_assoc.
Qed.

(** [C1] On a server whose second page names as its successor the link it
    was fetched with, the loop detects the repetition at step 2 and yet
    does not stop: whatever the number of turns it is given, it is still
    running, it has sent the repeated token at every turn after the
    first, and it has emitted the page's row once per turn. *)
Theorem loop_detection_does_not_stop (n : nat) :
  let run :=
    posts_request_records (PlainLib.lib None) Fixtures.config
      Fixtures.stuck_server (S (S n)) tt (Some (Partition "1")) in
  snd run = Running
  /\ map fst (requests (fst run))
     = JNull :: repeat (JStr Fixtures.next_url) (S n)
  /\ emitted (fst run) = repeat Fixtures.post_row (S (S n)).
Proof.
  unfold posts_request_records, request_records.
  erewrite loop_continue;
    [| eapply iteration_next_page; [vm_compute; reflexivity | reflexivity..]].
  match goal with
  | |- context [loop _ _ _ _ _ _ _ ?st1] =>
      destruct (stuck_loop (S n) st1 eq_refl) as (st' & Hloop & Hreq & Hem)
  end.
  rewrite Hloop. simpl. split; [done|]. split.
  - rewrite Hreq. reflexivity.
  - rewrite Hem. reflexivity.
Qed.

(** ** The loop on a server that fails on the second page *)

(** A failed request for a page fetched with a token is logged, and the
    next turn sends the same request again. *)
Lemma failing_turn (st : loop_state (World := unit)) :
  next_page_token st = JStr Fixtures.next_url ->
  exists st',
    posts_iteration Fixtures.failing_server st = (st', Running)
    /\ next_page_token st' = JStr Fixtures.next_url
    /\ map fst (requests st') = map fst (requests st) ++ [JStr Fixtures.next_url]
    /\ emitted st' = emitted st
    /\ log st' = log st ++ [LogInfo Fixtures.next_url_logged;
                            LogWarning (RequestException "400 Client Error")].
Proof.
  destruct st as [tok [] em rq lg]. simpl. intros ->.
  eexists. split.
  - erewrite iteration_request_failed;
      [reflexivity | vm_compute; reflexivity | reflexivity].
  - simpl. split; [done|]. split; [by rewrite map_app|]. split; [done|].
    by rewrite app_nil_r, <- app_assoc.
Qed.

Lemma failing_loop (n : nat) (st : loop_state (World := unit)) :
  next_page_token st = JStr Fixtures.next_url ->
  exists st',
    posts_loop Fixtures.failing_server n (Some (Partition "1")) st = (st', Running)
    /\ map fst (requests st')
       = map fst (requests st) ++ repeat (JStr Fixtures.next_url) n
    /\ emitted st' = emitted st.
Proof.
  revert st. induction n as [|n IH]; intros st Htok.
  - exists st. simpl. by rewrite app_nil_r.
  - destruct (failing_turn st Htok) as (st1 & Hturn & Htok1 & Hreq1 & Hem1 & _).
    destruct (IH st1 Htok1) as (st' & Hloop & Hreq & Hem).
    exists st'. split; [|split].
    + by rewrite (loop_continue _ _ _ _ _ _ _ _ _ Hturn).
    + rewrite Hreq, Hreq1. by rewrite <- app_assoc.
    + by rewrite Hem, Hem1.
Qed.

(** [C2] On a server that serves the first page and fails on the second,
    the failure is caught and logged and the first page's row is kept, but
    pagination does not end: whatever the number of turns the loop is
    given, it is still running and has sent the failing request at every
    turn after the first. *)
Theorem failed_page_is_requested_again (n : nat) :
  let run :=
    posts_request_records (PlainLib.lib None) Fixtures.config
      Fixtures.failing_server (S (S n)) tt (Some (Partition "1")) in
  snd run = Running
  /\ map fst (requests (fst run))
     = JNull :: repeat (JStr Fixtures.next_url) (S n)
  /\ emitted (fst run) = [Fixtures.post_row].
Proof.
  unfold posts_request_records, request_records.
  erewrite loop_continue;
    [| eapply iteration_next_page; [vm_compute; reflexivity | reflexivity..]].
  match goal with
  | |- context [loop _ _ _ _ _ _ _ ?st1] =>
      destruct (failing_loop (S n) st1 eq_refl) as (st' & Hloop & Hreq & Hem)
  end.
  rewrite Hloop. simpl. split; [done|]. split.
  - rewrite Hreq. reflexivity.
  - rewrite Hem. reflexivity.
Qed.

End scripted_servers.

(** A failure of the first request, which is prepared from no token, ends
    the loop with nothing emitted. *)
Lemma first_page_failure_stops {World Response : Type}
    prepare_request request_with_backoff parse_response get_next_page_token
    prepare_info
    (partition : option page_partition) (w w' : World) (fuel : nat)
    (req : FacebookPagesStream.prepared_request) (line : string) (e : exc) :
  prepare_request w partition JNull = Ok (req, line) ->
  request_with_backoff req w = (w', Raise e) ->
  let run :=
    RequestRecords.request_records (World := World) (Response := Response)
      prepare_request request_with_backoff parse_response get_next_page_token
      prepare_info (S fuel) w partition in
  snd run = RequestRecords.Finished
  /\ RequestRecords.emitted (fst run) = []
  /\ map fst (RequestRecords.requests (fst run)) = [JNull].
Proof.
  intros Hprepare Hreq. unfold RequestRecords.request_records.
  cbn [RequestRecords.loop].
  erewrite iteration_request_failed; [|exact Hprepare|exact Hreq].
  by simpl.
Qed.

(** ** Log redaction *)

Lemma prepare_request_logs (L : pylib) (path : string)
    (get_url_params : option page_partition -> json -> result url_params)
    (partition : option page_partition) (next_page_token : json)
    (req : FacebookPagesStream.prepared_request) (line : string) :
  FacebookPagesStream.prepare_request L path get_url_params partition next_page_token
  = Ok (req, line) ->
  line = FacebookPagesStream.redact_access_token
           (unquote L (FacebookPagesStream.req_url req)).
Proof.
  unfold FacebookPagesStream.prepare_request, bind.
  destruct (FacebookPagesStream.get_url path partition); [|discriminate].
  destruct (get_url_params partition next_page_token); [|discriminate].
  by intros [= <- <-].
Qed.

Example redact_masks_the_token :
  FacebookPagesStream.redact_access_token
    "https://graph.facebook.com/v10.0/1/posts?since=1&access_token=ABCD1234&limit=100"
  = "https://graph.facebook.com/v10.0/1/posts?since=1&access_token=*****&limit=100".
Proof. reflexivity. Qed.

(** [C8] The substitution leaves the URL as it is, token included, when
    [access_token] is the last parameter of the query string, and when the
    token holds a character that is not a letter or a digit. *)
Theorem access_token_left_in_the_log :
  FacebookPagesStream.redact_access_token
    "https://graph.facebook.com/v10.0/1/posts?limit=100&after=x&access_token=ABCD1234"
  = "https://graph.facebook.com/v10.0/1/posts?limit=100&after=x&access_token=ABCD1234"
  /\ is_substring "ABCD1234"
       (FacebookPagesStream.redact_access_token
          "https://graph.facebook.com/v10.0/1/posts?limit=100&after=x&access_token=ABCD1234")
     = true
  /\ FacebookPagesStream.redact_access_token
       "https://graph.facebook.com/v10.0/1/posts?access_token=1234|ABCD&limit=100"
     = "https://graph.facebook.com/v10.0/1/posts?access_token=1234|ABCD&limit=100".
Proof. repeat split; reflexivity. Qed.

(** ** State migration *)

(** [C9] A stored ["progress_markers"] that is a list is replaced by the empty
    mapping, the other keys of the state being kept; a stored value of any
    other type is left as it is. *)
Theorem progress_markers_list_is_reset
    (stream_state : pydict) (get_partition_state : page_partition -> pydict)
    (partition : option page_partition) (state : pydict) (markers : json) :
  state = match partition with
          | Some p => get_partition_state p
          | None => stream_state
          end ->
  dict_get "progress_markers" state = Some markers ->
  let state' :=
    FacebookPagesStream.get_stream_or_partition_state
      stream_state get_partition_state partition in
  (is_list markers = true ->
     dict_get "progress_markers" state' = Some (JObj [])
     /\ forall k, k <> "progress_markers" -> dict_get k state' = dict_get k state)
  /\ (is_list markers = false -> state' = state).
Proof.
  intros -> Hget state'. subst state'.
  unfold FacebookPagesStream.get_stream_or_partition_state, dict_mem.
  rewrite Hget. simpl. split; intros ->.
  - split; [apply dict_get_set_eq|]. intros k Hk. by apply dict_get_set_ne.
  - reflexivity.
Qed.

Lemma progress_markers_list_is_reset_witness :
  dict_get "progress_markers"
    [("bookmarks", JObj []); ("progress_markers", JList [])] = Some (JList [])
  /\ is_list (JList []) = true
  /\ dict_get "progress_markers"
       (FacebookPagesStream.get_stream_or_partition_state
          [("bookmarks", JObj []); ("progress_markers", JList [])]
          (fun _ => []) None)
     = Some (JObj []).
Proof.
  split; [reflexivity|]. split; [reflexivity|].
  exact (proj1 (proj1 (progress_markers_list_is_reset
                         [("bookmarks", JObj []); ("progress_markers", JList [])]
                         (fun _ => []) None _ (JList []) eq_refl eq_refl)
                  eq_refl)).
Defined.

(** A legacy value that is a string is not a mapping and is not reset. *)
Lemma progress_markers_string_is_kept :
  dict_get "progress_markers" [("progress_markers", JStr "legacy")]
  = Some (JStr "legacy")
  /\ is_dict (JStr "legacy") = false
  /\ dict_get "progress_markers"
       (FacebookPagesStream.get_stream_or_partition_state
          [("progress_markers", JStr "legacy")] (fun _ => []) None)
     <> Some (JObj []).
Proof. repeat split. discriminate. Qed.

(** ** PageInsights: the time window *)

Lemma base_first_request (L : pylib) (self : stream_config)
    (p : page_partition) (tok : json) :
  truthy tok = false ->
  exists params,
    FacebookPagesStream.get_url_params L self (Some p) tok = Ok params
    /\ params !! "since" = PInt <$> get_starting_timestamp L p
    /\ params !! "until" = None.
Proof.
  intros Htok. unfold FacebookPagesStream.get_url_params. simpl. rewrite Htok.
  eexists. split; [reflexivity|].
  destruct (get_starting_timestamp L p), (access_tokens self !! page_id p);
    by simplify_map_eq.
Qed.

Lemma base_token_request (L : pylib) (self : stream_config)
    (p : page_partition) (tok : json) (q : gmap string (list string)) :
  truthy tok = true ->
  FacebookPagesStream.token_query L tok = Ok q ->
  FacebookPagesStream.get_url_params L self (Some p) tok = Ok (PList <$> q).
Proof.
  intros Htok Hq. unfold FacebookPagesStream.get_url_params. simpl.
  rewrite Htok. unfold FacebookPagesStream.token_params. by rewrite Hq.
Qed.

(** [C4] The first PageInsights request (no token) with a stored cursor
    [since = T] asks for [until = T + 8035200] when that does not exceed the
    clock and for [until = now - 86400] when it does; a request built from a
    token keeps the token's [until] unless it exceeds the clock, in which
    case its first value becomes [now - 86400]. *)
Theorem page_insights_window_clamp
    (L : pylib) (self : stream_config) (now : Z) (p : page_partition) :
  (forall tok T,
      truthy tok = false -> get_starting_timestamp L p = Some T ->
      exists params,
        PageInsights.get_url_params L self now (Some p) tok = Ok params
        /\ params !! "since" = Some (PInt T)
        /\ (T + 8035200 <= now -> params !! "until" = Some (PInt (T + 8035200)))
        /\ (T + 8035200 > now -> params !! "until" = Some (PInt (now - 86400))))
  /\ (forall tok q until rest n,
      truthy tok = true ->
      FacebookPagesStream.token_query L tok = Ok q ->
      q !! "until" = Some (until :: rest) ->
      int_of_str L until = Ok n ->
      exists params,
        PageInsights.get_url_params L self now (Some p) tok = Ok params
        /\ (n > now ->
            params !! "until" = Some (PList (py_str (now - 86400) :: rest)))
        /\ (n <= now -> params !! "until" = Some (PList (until :: rest)))).
Proof.
  split.
  - intros tok T Htok Hstart.
    destruct (base_first_request L self p tok Htok) as (params & Hbase & Hsince & _).
    rewrite Hstart in Hsince. simpl in Hsince.
    unfold PageInsights.get_url_params. rewrite Hbase. simpl. rewrite Htok. simpl.
    unfold PageInsights.first_window. rewrite Hsince. simpl.
    eexists. split; [reflexivity|]. split; [by simplify_map_eq|].
    unfold timedelta_seconds.
    destruct (Z.leb_spec (T + 8035200) now); split; intros; simplify_map_eq;
      solve [done | lia | repeat f_equal; lia].
  - intros tok q until rest n Htok Hq Huntil Hint.
    unfold PageInsights.get_url_params.
    rewrite (base_token_request L self p tok q Htok Hq). simpl. rewrite Htok. simpl.
    unfold PageInsights.clamp_token_until.
    rewrite lookup_fmap, Huntil. simpl. rewrite Hint. simpl.
    unfold timedelta_seconds.
    destruct (Z.gtb_spec n now); simpl; eexists; (split; [reflexivity|]);
      split; intros; simplify_map_eq; solve [done | lia | by rewrite Huntil].
Qed.

Lemma page_insights_window_clamp_witness :
  (truthy JNull = false
   /\ get_starting_timestamp (PlainLib.lib (Some 1600000000)) (Partition "1")
      = Some 1600000000
   /\ exists params,
        PageInsights.get_url_params (PlainLib.lib (Some 1600000000))
          Fixtures.config Fixtures.now (Some (Partition "1")) JNull = Ok params
        /\ params !! "until" = Some (PInt 1608035200))
  /\ (truthy (JStr Fixtures.future_url) = true
      /\ int_of_str (PlainLib.lib None) "1800000000" = Ok 1800000000
      /\ exists params,
           PageInsights.get_url_params (PlainLib.lib None) Fixtures.config
             Fixtures.now (Some (Partition "1")) (JStr Fixtures.future_url)
           = Ok params
           /\ params !! "until" = Some (PList ["1699913600"])).
Proof.
  split; (split; [reflexivity|]); (split; [reflexivity|]).
  - destruct (proj1 (page_insights_window_clamp (PlainLib.lib (Some 1600000000))
                       Fixtures.config Fixtures.now (Partition "1"))
                JNull 1600000000 eq_refl eq_refl)
      as (params & Hparams & _ & Huntil & _).
    exists params. split; [exact Hparams|]. apply Huntil. by vm_compute.
  - destruct (proj2 (page_insights_window_clamp (PlainLib.lib None)
                       Fixtures.config Fixtures.now (Partition "1"))
                (JStr Fixtures.future_url)
                (PlainLib.parse_qs (PlainLib.query_of Fixtures.future_url))
                "1800000000" [] 1800000000 eq_refl eq_refl eq_refl eq_refl)
      as (params & Hparams & Huntil & _).
    exists params. split; [exact Hparams|]. apply Huntil. by vm_compute.
Defined.

(** [C5] For a PageInsights response with a [paging.next] link whose query
    holds [since] and [until], no token is returned when
    [since >= now - 172800] or [now <= until <= now + 172800], and the link
    itself is returned otherwise; a response without [paging] or without
    [paging.next] gives no token. *)
Theorem page_insights_next_token_suppression
    (L : pylib) (now : Z) (resp : pydict) (previous_token : json) :
  (forall paging next q s srest u urest since until,
      dict_get "paging" resp = Some (JObj paging) ->
      dict_get "next" paging = Some next ->
      FacebookPagesStream.token_query L next = Ok q ->
      q !! "since" = Some (s :: srest) -> int_of_str L s = Ok since ->
      q !! "until" = Some (u :: urest) -> int_of_str L u = Ok until ->
      (since >= now - 172800 \/ now <= until <= now + 172800 ->
       PageInsights.get_next_page_token L now (JObj resp) previous_token = Ok JNull)
      /\ (since < now - 172800 -> ~ (now <= until <= now + 172800) ->
          PageInsights.get_next_page_token L now (JObj resp) previous_token = Ok next))
  /\ (dict_get "paging" resp = None ->
      PageInsights.get_next_page_token L now (JObj resp) previous_token = Ok JNull)
  /\ (forall paging,
      dict_get "paging" resp = Some (JObj paging) ->
      dict_get "next" paging = None ->
      PageInsights.get_next_page_token L now (JObj resp) previous_token = Ok JNull).
Proof.
  unfold PageInsights.get_next_page_token. simpl py_in. unfold dict_mem.
  split; [|split].
  - intros paging next q s srest u urest since until
      Hpaging Hnext Hq Hs Hsince Hu Huntil.
    rewrite Hpaging. cbn [bind py_getitem py_in]. rewrite Hpaging.
    cbn [bind py_in]. unfold dict_mem. rewrite Hnext. cbn [bind py_getitem].
    rewrite Hnext. cbn [bind]. rewrite Hq. cbn [bind].
    unfold PageInsights.int_param.
    rewrite Hs, Hsince. cbn [bind]. rewrite Hu, Huntil. cbn [bind].
    unfold timedelta_seconds.
    destruct (Z.geb_spec since (now - 2 * 86400));
      destruct (Z.geb_spec until now);
      destruct (Z.leb_spec until (now + 2 * 86400)); simpl;
      split; intros; solve [done | lia].
  - intros Hpaging. by rewrite Hpaging.
  - intros paging Hpaging Hnext. rewrite Hpaging. cbn [bind py_getitem].
    rewrite Hpaging. cbn [bind py_in]. unfold dict_mem. by rewrite Hnext.
Qed.

Lemma page_insights_next_token_suppression_witness :
  PageInsights.get_next_page_token (PlainLib.lib None) Fixtures.now
    (JObj (Fixtures.insights_page Fixtures.stalled_url)) JNull
  = Ok JNull
  /\ PageInsights.get_next_page_token (PlainLib.lib None) Fixtures.now
       (JObj (Fixtures.insights_page Fixtures.past_url)) JNull
     = Ok (JStr Fixtures.past_url)
  /\ PageInsights.get_next_page_token (PlainLib.lib None) Fixtures.now
       (JObj [("data", JList [])]) JNull
     = Ok JNull.
Proof.
  split; [|split].
  - refine (proj1 (proj1 (page_insights_next_token_suppression (PlainLib.lib None)
                            Fixtures.now
                            (Fixtures.insights_page Fixtures.stalled_url) JNull)
                     [("next", JStr Fixtures.stalled_url)]
                     (JStr Fixtures.stalled_url)
                     (PlainLib.parse_qs (PlainLib.query_of Fixtures.stalled_url))
                     "1699910000" [] "1699990000" [] 1699910000 1699990000
                     eq_refl eq_refl eq_refl eq_refl eq_refl eq_refl eq_refl) _).
    left. by vm_compute.
  - refine (proj2 (proj1 (page_insights_next_token_suppression (PlainLib.lib None)
                            Fixtures.now
                            (Fixtures.insights_page Fixtures.past_url) JNull)
                     [("next", JStr Fixtures.past_url)]
                     (JStr Fixtures.past_url)
                     (PlainLib.parse_qs (PlainLib.query_of Fixtures.past_url))
                     "1600000000" [] "1608035200" [] 1600000000 1608035200
                     eq_refl eq_refl eq_refl eq_refl eq_refl eq_refl eq_refl) _ _).
    + by vm_compute.
    + intros [H _]. by vm_compute in H.
  - exact (proj1 (proj2 (page_insights_next_token_suppression (PlainLib.lib None)
                           Fixtures.now [("data", JList [])] JNull)) eq_refl).
Defined.

(** ** Parameters of a request built from a token *)

Lemma page_token_request (L : pylib) (self : stream_config)
    (p : page_partition) (tok : json) (q : gmap string (list string)) :
  truthy tok = true ->
  FacebookPagesStream.token_query L tok = Ok q ->
  Page.get_url_params L self (Some p) tok
  = Ok (<["fields" := PStr (Page.fields self)]> (PList <$> q)).
Proof.
  intros Htok Hq. unfold Page.get_url_params.
  by rewrite (base_token_request L self p tok q Htok Hq).
Qed.

(** [C3] With a pagination token, the base builder and the builders of
    Posts, PostTaggedProfile, PostAttachments and PostInsights return exactly
    the parameters parsed from the token's query string; the builder of
    PageInsights returns them with [metric] set to the joined metric list,
    every parameter other than [metric] and [until] being as parsed. *)
Theorem token_parameters_returned
    (L : pylib) (self : stream_config) (now : Z) (p : page_partition)
    (tok : json) (q : gmap string (list string)) :
  truthy tok = true ->
  FacebookPagesStream.token_query L tok = Ok q ->
  FacebookPagesStream.get_url_params L self (Some p) tok = Ok (PList <$> q)
  /\ (forall c,
      c = CPosts \/ c = CPostTaggedProfile \/ c = CPostAttachments
      \/ c = CPostInsights ->
      get_url_params L self now c (Some p) tok = Ok (PList <$> q))
  /\ (forall params,
      get_url_params L self now CPageInsights (Some p) tok = Ok params ->
      params !! "metric" = Some (PStr (join_comma (metrics self)))
      /\ forall k, k <> "metric" -> k <> "until" ->
                   params !! k = PList <$> (q !! k)).
Proof.
  intros Htok Hq.
  pose proof (base_token_request L self p tok q Htok Hq) as Hbase.
  split; [exact Hbase|]. split.
  - intros c [->|[->|[->| ->]]]; simpl;
      unfold Posts.get_url_params, PostTaggedProfile.get_url_params,
        PostAttachments.get_url_params, PostInsights.get_url_params;
      rewrite Hbase; simpl; by rewrite Htok.
  - intros params. simpl. unfold PageInsights.get_url_params.
    rewrite Hbase. simpl. rewrite Htok. simpl.
    unfold PageInsights.clamp_token_until. rewrite lookup_fmap.
    destruct (q !! "until") as [[|until rest]|] eqn:Huntil; simpl; try discriminate.
    destruct (int_of_str L until) as [n|]; simpl; [|discriminate].
    destruct (n >? now); simpl; intros [= <-];
      (split; [by simplify_map_eq|]); intros k Hm Hu;
      rewrite !lookup_insert_ne by done; by rewrite lookup_fmap.
Qed.

Lemma token_parameters_returned_witness :
  truthy (JStr Fixtures.next_url) = true
  /\ get_url_params (PlainLib.lib None) Fixtures.config Fixtures.now CPosts
       (Some (Partition "1")) (JStr Fixtures.next_url)
     = Ok (PList <$> PlainLib.parse_qs (PlainLib.query_of Fixtures.next_url)).
Proof.
  split; [reflexivity|].
  refine (proj1 (proj2 (token_parameters_returned (PlainLib.lib None)
                          Fixtures.config Fixtures.now (Partition "1")
                          (JStr Fixtures.next_url) _ eq_refl eq_refl)) CPosts _).
  by left.
Defined.

(** With a token, PageInsights does not return the parsed parameters as they
    are: it adds [metric]. *)
Lemma page_insights_token_adds_metric :
  truthy (JStr Fixtures.past_url) = true
  /\ get_url_params (PlainLib.lib None) Fixtures.config Fixtures.now CPageInsights
       (Some (Partition "1")) (JStr Fixtures.past_url)
     <> FacebookPagesStream.token_params (PlainLib.lib None) (JStr Fixtures.past_url).
Proof.
  split; [reflexivity|]. intros H.
  apply (f_equal (fun r => match r with
                           | Ok params => params !! "metric"
                           | Raise _ => None
                           end)) in H.
  vm_compute in H. discriminate H.
Qed.

(** ** PageInsights without a starting timestamp *)

(** [C10] On a partition without starting timestamp the base builder leaves
    [since] out of the first request's parameters, the PageInsights builder
    raises [KeyError] on it, and [request_records], which prepares the
    request outside its [try], ends on that exception: nothing is sent or
    emitted, no warning is logged, and the log holds the opening line and,
    for a page without access token, the line the base builder wrote before
    the exception. *)
Theorem page_insights_missing_since_propagates {World : Type}
    (L : pylib) (self : stream_config) (clock : World -> Z)
    (server : FacebookPagesStream.prepared_request -> World ->
              World * result (result json))
    (w : World) (p : page_partition) (fuel : nat) :
  get_starting_timestamp L p = None ->
  (exists params,
      FacebookPagesStream.get_url_params L self (Some p) JNull = Ok params
      /\ params !! "since" = None)
  /\ PageInsights.get_url_params L self (clock w) (Some p) JNull
     = Raise (KeyError "since")
  /\ page_insights_request_records L self clock server (S fuel) w (Some p)
     = (RequestRecords.LoopState JNull w [] []
          (LogInfo (RequestRecords.reading_data_for (Some p))
           :: match access_tokens self !! page_id p with
              | Some _ => []
              | None =>
                  [LogInfo ("Not enough rights for page: " ++ page_id p)%string]
              end),
        RequestRecords.Propagated (KeyError "since")).
Proof.
  intros Hstart.
  destruct (base_first_request L self p JNull eq_refl) as (params & Hbase & Hsince & _).
  rewrite Hstart in Hsince. simpl in Hsince.
  assert (PageInsights.get_url_params L self (clock w) (Some p) JNull
          = Raise (KeyError "since")) as Hraise.
  { unfold PageInsights.get_url_params. rewrite Hbase. simpl.
    unfold PageInsights.first_window. by rewrite Hsince. }
  split; [by exists params|]. split; [exact Hraise|].
  unfold page_insights_request_records, RequestRecords.request_records.
  rewrite (loop_prepare_raises _ _ _ _ _ _ _ (KeyError "since")).
  - unfold RequestRecords.logged_info, stream_prepare_info,
      FacebookPagesStream.get_url_params_info. simpl.
    by destruct (access_tokens self !! page_id p).
  - simpl.
    unfold page_insights_prepare_request, FacebookPagesStream.prepare_request.
    simpl. by rewrite Hraise.
Qed.

Lemma page_insights_missing_since_propagates_witness :
  get_starting_timestamp (PlainLib.lib None) (Partition "2") = None
  /\ page_insights_request_records (PlainLib.lib None) Fixtures.config
       (fun _ : unit => Fixtures.now) Fixtures.stuck_server 1 tt
       (Some (Partition "2"))
     = (RequestRecords.LoopState JNull tt [] []
          [LogInfo "Reading data for 2";
           LogInfo "Not enough rights for page: 2"],
        RequestRecords.Propagated (KeyError "since")).
Proof.
  split; [reflexivity|].
  exact (proj2 (proj2 (page_insights_missing_since_propagates (PlainLib.lib None)
                         Fixtures.config (fun _ : unit => Fixtures.now)
                         Fixtures.stuck_server tt (Partition "2") 0 eq_refl))).
Defined.

(** * Further properties of the code *)

(** ** The pagination loop: what every run keeps *)

Section loop_invariants.
Import RequestRecords.
Context {World Response : Type}.
Variable prepare_request :
  World -> option page_partition -> json ->
  result (FacebookPagesStream.prepared_request * string).
Variable request_with_backoff :
  FacebookPagesStream.prepared_request -> World -> World * result Response.
Variable parse_response : World -> Response -> gen unit.
Variable get_next_page_token : World -> Response -> json -> result json.
Variable prepare_info : World -> option page_partition -> json -> list string.
Variable partition : option page_partition.

Abbreviation turn :=
  (iteration prepare_request request_with_backoff parse_response
     get_next_page_token prepare_info partition).
Abbreviation turns :=
  (fun fuel =>
     loop prepare_request request_with_backoff parse_response
       get_next_page_token prepare_info fuel partition).

(** How a turn ends, whatever the methods answer. *)
Lemma turn_cases (st : loop_state) :
  (exists e,
      prepare_request (world st) partition (next_page_token st) = Raise e
      /\ turn st = (logged_info prepare_info partition st, Propagated e))
  \/ ((snd (turn st) = Running \/ snd (turn st) = Finished)
      /\ (snd (turn st) = Finished ->
          truthy (next_page_token (fst (turn st))) = false)).
Proof.
  unfold RequestRecords.iteration, try_body.
  cbn [logged_info world next_page_token].
  destruct (prepare_request (world st) partition (next_page_token st))
    as [[req line]|e]; [right | left; by exists e].
  cbn -[truthy py_eq].
  destruct (request_with_backoff req (world st)) as [w [resp|e]];
    cbn -[truthy py_eq];
    [destruct (outcome (parse_response w resp)) as [[]|e];
     cbn -[truthy py_eq];
     [destruct (get_next_page_token w resp (next_page_token st)) as [tok|e];
      cbn -[truthy py_eq];
      [destruct (truthy tok) eqn:Htok; cbn -[truthy py_eq];
       [destruct (py_eq tok (next_page_token st)); cbn -[truthy py_eq];
        rewrite ?Htok; cbn -[truthy py_eq] |] |] |] |];
    try (destruct (truthy (next_page_token st)) eqn:Hold; cbn -[truthy py_eq]);
    (split; [first [by left | by right]|]);
    first [discriminate | done].
Qed.

(** [X1] The only exception that leaves [request_records] is one raised by
    [prepare_request]: when a run ends on an exception, the state is the one
    in which [prepare_request] raised it.  An exception of the request, of
    the parse or of [get_next_page_token] never leaves the loop. *)
Theorem only_prepare_request_propagates (fuel : nat) (st : loop_state) (e : exc) :
  snd (turns fuel st) = Propagated e ->
  prepare_request (world (fst (turns fuel st))) partition
    (next_page_token (fst (turns fuel st))) = Raise e.
Proof.
  revert st. induction fuel as [|fuel IH]; intros st; [discriminate|].
  cbn [loop].
  destruct (turn_cases st) as [(e' & Hprep & Hturn)|(Hst & _)].
  - rewrite Hturn. simpl. by intros [= <-].
  - destruct (turn st) as [st' status]. simpl in Hst.
    destruct Hst as [-> | ->]; [apply IH | discriminate].
Qed.

(** [X3] A run that finishes leaves a falsy token: the loop ends normally
    only on a turn after which [next_page_token] is [None] or empty. *)
Theorem finished_run_has_no_token (fuel : nat) (st : loop_state) :
  snd (turns fuel st) = Finished ->
  truthy (next_page_token (fst (turns fuel st))) = false.
Proof.
  revert st. induction fuel as [|fuel IH]; intros st; [discriminate|].
  cbn [loop].
  destruct (turn_cases st) as [(e' & Hprep & Hturn)|(Hst & Hfin)].
  - rewrite Hturn. discriminate.
  - destruct (turn st) as [st' status]. simpl in *.
    destruct Hst as [-> | ->]; [apply IH | intros _; by apply Hfin].
Qed.

End loop_invariants.

(** ** Posts: one row per post *)

Lemma posts_rows (page_id : string) (resp : pydict) (rows : list pydict) :
  dict_get "data" resp = Some (JList (map JObj rows)) ->
  Posts.parse_response page_id (JObj resp)
  = Gen (map (with_page_id page_id) rows) (Ok tt).
Proof.
  intros Hdata.
  unfold Posts.parse_response. simpl py_getitem. rewrite Hdata. gen_step.
  rewrite (gen_for_singletons
             (fun v => match v with
                       | JObj d => with_page_id page_id d
                       | _ => v
                       end)).
  - by rewrite map_map.
  - intros v Hv. apply in_map_iff in Hv as (d & <- & _). reflexivity.
Qed.

(** [X5] On a response whose [data] is a list of objects, [Posts] yields
    one row per post, in order, each being the post with [page_id] set to
    the partition's page (replacing a [page_id] the post may carry). *)
Theorem posts_rows_tagged (page_id : string) (resp : pydict)
    (rows : list pydict) :
  dict_get "data" resp = Some (JList (map JObj rows)) ->
  Posts.parse_response page_id (JObj resp)
  = Gen (map (with_page_id page_id) rows) (Ok tt)
  /\ length (yielded (Posts.parse_response page_id (JObj resp))) = length rows
  /\ forall row, In row (yielded (Posts.parse_response page_id (JObj resp))) ->
       exists d, row = JObj d /\ dict_get "page_id" d = Some (JStr page_id).
Proof.
  intros Hdata. pose proof (posts_rows page_id resp rows Hdata) as Hrows.
  rewrite Hrows. simpl. split; [done|]. split; [by rewrite length_map|].
  intros row Hrow. apply in_map_iff in Hrow as (d & <- & _).
  eexists. split; [reflexivity|]. apply dict_get_set_eq.
Qed.

Lemma posts_rows_tagged_witness :
  dict_get "data" [("data", JList (map JObj [[("id", JStr "a")]; [("id", JStr "b")]]))]
  = Some (JList (map JObj [[("id", JStr "a")]; [("id", JStr "b")]]))
  /\ Posts.parse_response "1"
       (JObj [("data", JList (map JObj [[("id", JStr "a")]; [("id", JStr "b")]]))])
     = Gen [JObj [("id", JStr "a"); ("page_id", JStr "1")];
            JObj [("id", JStr "b"); ("page_id", JStr "1")]] (Ok tt).
Proof.
  split; [reflexivity|].
  exact (proj1 (posts_rows_tagged "1"
                  [("data", JList (map JObj [[("id", JStr "a")]; [("id", JStr "b")]]))]
                  [[("id", JStr "a")]; [("id", JStr "b")]] eq_refl)).
Defined.

(** [X6] A response without [data] makes [Posts] raise [KeyError] before
    any row; an entry of [data] that is not an object (a number, a string,
    a list, null) makes it raise [TypeError] after the rows of the posts
    before it have been yielded, the posts after it being lost. *)
Theorem posts_rows_until_bad_entry (page_id : string) (resp : pydict)
    (before : list pydict) (bad : json) (after : list json) :
  (dict_get "data" resp = None ->
   Posts.parse_response page_id (JObj resp) = Gen [] (Raise (KeyError "data")))
  /\ (dict_get "data" resp = Some (JList (map JObj before ++ bad :: after)) ->
      is_dict bad = false ->
      Posts.parse_response page_id (JObj resp)
      = Gen (map (with_page_id page_id) before) (Raise TypeError)).
Proof.
  unfold Posts.parse_response. simpl py_getitem. split.
  - intros ->. by gen_step.
  - intros -> Hbad. gen_step.
    induction before as [|d before IH]; simpl.
    + destruct bad; try discriminate; by gen_step.
    + gen_step. rewrite IH. by gen_step.
Qed.

Lemma posts_rows_until_bad_entry_witness :
  dict_get "data" [("data", JList (map JObj [[("id", JStr "a")]] ++ JInt 7 :: [JObj []]))]
  = Some (JList (map JObj [[("id", JStr "a")]] ++ JInt 7 :: [JObj []]))
  /\ is_dict (JInt 7) = false
  /\ Posts.parse_response "1"
       (JObj [("data", JList [JObj [("id", JStr "a")]; JInt 7; JObj []])])
     = Gen [JObj [("id", JStr "a"); ("page_id", JStr "1")]] (Raise TypeError).
Proof.
  split; [reflexivity|]. split; [reflexivity|].
  exact (proj2 (posts_rows_until_bad_entry "1"
                  [("data", JList (map JObj [[("id", JStr "a")]] ++ JInt 7 :: [JObj []]))]
                  [[("id", JStr "a")]] (JInt 7) [JObj []]) eq_refl eq_refl).
Defined.

(** ** Posts: pagination along a chain of links *)

Section posts_chain.
Import RequestRecords.
Variable L : pylib.
Variable self : stream_config.
Variable p : page_partition.
Hypothesis parse_qs_total : forall url, exists q, parse_qs_query L url = Ok q.

Abbreviation chain_loop :=
  (loop (posts_prepare_request L self) scripted_server
     (posts_parse_response (Some p)) base_get_next_page_token
     (stream_prepare_info self)).
Abbreviation chain_turn :=
  (iteration (posts_prepare_request L self) scripted_server
     (posts_parse_response (Some p)) base_get_next_page_token
     (stream_prepare_info self) (Some p)).

Lemma posts_prepare_succeeds (w : list (result (result json))) (token : json) :
  link_or_none token ->
  exists req line,
    posts_prepare_request L self w (Some p) token = Ok (req, line).
Proof.
  intros [->|[url ->]];
    unfold posts_prepare_request, FacebookPagesStream.prepare_request,
      Posts.get_url_params, FacebookPagesStream.get_url_params; simpl.
  - by eexists _, _.
  - destruct (String.eqb url "") eqn:Hurl; simpl; [by eexists _, _|].
    unfold FacebookPagesStream.token_params. simpl.
    destruct (parse_qs_total url) as [q ->]. simpl. by eexists _, _.
Qed.

Lemma posts_page_rows (w : list (result (result json))) (posts : list pydict)
    (next : option string) :
  posts_parse_response (Some p) w (Ok (posts_page posts next))
  = Gen (map (with_page_id (page_id p)) posts) (Ok tt).
Proof.
  unfold posts_parse_response, posts_page. gen_step.
  by apply posts_rows.
Qed.

Lemma posts_chain_runs (last : list pydict) (tail : list (result (result json)))
    (extra : nat) (pages : list (list pydict * string)) :
  forall st : loop_state,
    link_or_none (next_page_token st) ->
    fresh_links (next_page_token st) (map snd pages) = true ->
    world st = posts_script pages last ++ tail ->
    exists st',
      chain_loop (S (length pages) + extra) (Some p) st = (st', Finished)
      /\ emitted st'
         = emitted st
           ++ map (with_page_id (page_id p)) (concat (map fst pages) ++ last)
      /\ map fst (requests st')
         = map fst (requests st)
           ++ next_page_token st :: map JStr (map snd pages)
      /\ world st' = tail.
Proof.
  induction pages as [|[posts url] pages IH]; intros st Htok Hfresh Hworld.
  - destruct (posts_prepare_succeeds (world st) _ Htok) as (req & line & Hprep).
    eexists. split; [|split; [|split]].
    + cbn [loop length Nat.add].
      erewrite iteration_last_page;
        [reflexivity | exact Hprep | by rewrite Hworld
        | by rewrite posts_page_rows | reflexivity | reflexivity].
    + by rewrite posts_page_rows.
    + simpl. by rewrite map_app.
    + reflexivity.
  - destruct (posts_prepare_succeeds (world st) _ Htok) as (req & line & Hprep).
    simpl in Hfresh.
    apply andb_true_iff in Hfresh as [Hfresh Hrest].
    apply andb_true_iff in Hfresh as [Hnonempty Hdistinct].
    apply negb_true_iff in Hdistinct.
    assert (chain_turn st
            = (set_token (JStr url)
                 (emit (map (with_page_id (page_id p)) posts)
                    (set_world (posts_script pages last ++ tail)
                       (sent req
                          (logged (LogInfo line)
                             (logged_info (stream_prepare_info self) (Some p) st))))),
               Running)) as Hturn.
    { erewrite iteration_next_page;
        [| exact Hprep | by rewrite Hworld | by rewrite posts_page_rows
         | reflexivity | exact Hnonempty | exact Hdistinct].
      by rewrite posts_page_rows. }
    match type of Hturn with
    | _ = (?s, _) =>
        destruct (IH s (or_intror (ex_intro _ url eq_refl)) Hrest eq_refl)
          as (st' & Hloop & Hem & Hreq & Hw)
    end.
    exists st'. split; [|split; [|split]].
    + cbn [length Nat.add]. rewrite (loop_continue _ _ _ _ _ _ _ _ _ Hturn).
      exact Hloop.
    + rewrite Hem. simpl. by rewrite <- !app_assoc, (map_app _ posts).
    + rewrite Hreq. simpl. rewrite map_app. simpl. by rewrite <- app_assoc.
    + exact Hw.
Qed.

(** [X7] When the server serves a chain of pages, each naming a non-empty
    next link that differs from the link it was fetched with, and then a
    page without next link, [request_records] of [Posts] finishes: it sends
    one request per page, the first without token and the others with the
    links in order, and emits the posts of all pages in order, each with
    its [page_id]. *)
Theorem posts_pagination_follows_links (pages : list (list pydict * string))
    (last : list pydict) (tail : list (result (result json))) (extra : nat) :
  fresh_links JNull (map snd pages) = true ->
  let run :=
    posts_request_records L self scripted_server (S (length pages) + extra)
      (posts_script pages last ++ tail) (Some p) in
  snd run = Finished
  /\ emitted (fst run)
     = map (with_page_id (page_id p)) (concat (map fst pages) ++ last)
  /\ map fst (requests (fst run)) = JNull :: map JStr (map snd pages)
  /\ world (fst run) = tail.
Proof.
  intros Hfresh. unfold posts_request_records, request_records.
  match goal with
  | |- context [loop _ _ _ _ _ _ _ ?s] =>
      destruct (posts_chain_runs last tail extra pages s (or_introl eq_refl)
                  Hfresh eq_refl)
        as (st' & Hloop & Hem & Hreq & Hw)
  end.
  rewrite Hloop. simpl. by rewrite Hem, Hreq, Hw.
Qed.

End posts_chain.

Lemma only_prepare_request_propagates_witness :
  snd (RequestRecords.loop
         (page_insights_prepare_request (PlainLib.lib None) Fixtures.config
            (fun _ : unit => Fixtures.now))
         Fixtures.stuck_server page_insights_parse_response
         (page_insights_get_next_page_token (PlainLib.lib None)
            (fun _ : unit => Fixtures.now))
         (stream_prepare_info Fixtures.config)
         1 (Some (Partition "1"))
         (RequestRecords.LoopState JNull tt [] [] []))
  = RequestRecords.Propagated (KeyError "since")
  /\ page_insights_prepare_request (PlainLib.lib None) Fixtures.config
       (fun _ : unit => Fixtures.now) tt (Some (Partition "1")) JNull
     = Raise (KeyError "since").
Proof.
  split; [reflexivity|].
  exact (only_prepare_request_propagates
           (page_insights_prepare_request (PlainLib.lib None) Fixtures.config
              (fun _ : unit => Fixtures.now))
           Fixtures.stuck_server page_insights_parse_response
           (page_insights_get_next_page_token (PlainLib.lib None)
              (fun _ : unit => Fixtures.now))
           (stream_prepare_info Fixtures.config)
           (Some (Partition "1")) 1
           (RequestRecords.LoopState JNull tt [] [] [])
           (KeyError "since") eq_refl).
Defined.

Lemma finished_run_has_no_token_witness :
  snd (RequestRecords.loop
         (posts_prepare_request (PlainLib.lib None) Fixtures.config)
         scripted_server (posts_parse_response (Some (Partition "1")))
         base_get_next_page_token (stream_prepare_info Fixtures.config)
         1 (Some (Partition "1"))
         (RequestRecords.LoopState JNull
            (posts_script [] [[("id", JStr "a")]]) [] [] []))
  = RequestRecords.Finished
  /\ truthy
       (RequestRecords.next_page_token
          (fst (RequestRecords.loop
                  (posts_prepare_request (PlainLib.lib None) Fixtures.config)
                  scripted_server (posts_parse_response (Some (Partition "1")))
                  base_get_next_page_token (stream_prepare_info Fixtures.config)
                  1 (Some (Partition "1"))
                  (RequestRecords.LoopState JNull
                     (posts_script [] [[("id", JStr "a")]]) [] [] []))))
     = false.
Proof.
  split; [reflexivity|].
  exact (finished_run_has_no_token
           (posts_prepare_request (PlainLib.lib None) Fixtures.config)
           scripted_server (posts_parse_response (Some (Partition "1")))
           base_get_next_page_token (stream_prepare_info Fixtures.config)
           (Some (Partition "1")) 1
           (RequestRecords.LoopState JNull
              (posts_script [] [[("id", JStr "a")]]) [] [] [])
           eq_refl).
Defined.

Lemma posts_pagination_follows_links_witness :
  fresh_links JNull [Fixtures.next_url] = true
  /\ (let run :=
        posts_request_records (PlainLib.lib None) Fixtures.config scripted_server 2
          (posts_script [([[("id", JStr "a")]], Fixtures.next_url)]
             [[("id", JStr "b")]])
          (Some (Partition "1")) in
      snd run = RequestRecords.Finished
      /\ RequestRecords.emitted (fst run)
         = [JObj [("id", JStr "a"); ("page_id", JStr "1")];
            JObj [("id", JStr "b"); ("page_id", JStr "1")]]
      /\ map fst (RequestRecords.requests (fst run))
         = [JNull; JStr Fixtures.next_url]).
Proof.
  split; [reflexivity|].
  destruct (posts_pagination_follows_links (PlainLib.lib None) Fixtures.config
              (Partition "1") (fun url => ex_intro _ _ eq_refl)
              [([[("id", JStr "a")]], Fixtures.next_url)] [[("id", JStr "b")]]
              [] 0 eq_refl) as (Hfin & Hem & Hreq & _).
  rewrite app_nil_r in Hfin, Hem, Hreq.
  split; [exact Hfin|]. split; [exact Hem | exact Hreq].
Defined.

(** ** Parameter builders: the first request and a missing partition *)

Lemma base_first_request_lookups
    (L : pylib) (self : stream_config) (p : page_partition) (tok : json) :
  truthy tok = false ->
  exists params,
    FacebookPagesStream.get_url_params L self (Some p) tok = Ok params
    /\ params !! "limit" = Some (PInt 100)
    /\ params !! "access_token" = PStr <$> (access_tokens self !! page_id p)
    /\ params !! "since" = PInt <$> get_starting_timestamp L p
    /\ forall k, k <> "limit" -> k <> "access_token" -> k <> "since" ->
                 params !! k = None.
Proof.
  intros Htok. unfold FacebookPagesStream.get_url_params. simpl. rewrite Htok.
  eexists. split; [reflexivity|].
  destruct (get_starting_timestamp L p), (access_tokens self !! page_id p);
    repeat split; intros; by simplify_map_eq.
Qed.

(** [X8] Without token the base builder never raises on a partition: the
    parameters are [limit = 100], [access_token] exactly when the page has
    one in [access_tokens], [since] exactly when there is a starting
    timestamp, and nothing else. *)
Theorem base_first_request_parameters
    (L : pylib) (self : stream_config) (p : page_partition) (tok : json) :
  truthy tok = false ->
  exists params,
    FacebookPagesStream.get_url_params L self (Some p) tok = Ok params
    /\ params !! "limit" = Some (PInt 100)
    /\ params !! "access_token" = PStr <$> (access_tokens self !! page_id p)
    /\ params !! "since" = PInt <$> get_starting_timestamp L p
    /\ forall k, k <> "limit" -> k <> "access_token" -> k <> "since" ->
                 params !! k = None.
Proof.
  exact (base_first_request_lookups L self p tok).
Qed.

Lemma base_first_request_parameters_witness :
  truthy JNull = false
  /\ exists params,
       FacebookPagesStream.get_url_params (PlainLib.lib (Some 1600000000))
         Fixtures.config (Some (Partition "2")) JNull = Ok params
       /\ params !! "access_token" = None
       /\ params !! "since" = Some (PInt 1600000000).
Proof.
  split; [reflexivity|].
  destruct (base_first_request_parameters (PlainLib.lib (Some 1600000000))
              Fixtures.config (Partition "2") JNull eq_refl)
    as (params & Hparams & _ & Htoken & Hsince & _).
  exists params. split; [exact Hparams|]. split; [exact Htoken | exact Hsince].
Defined.

(** Without partition every builder raises [TypeError], with or without
    token: [partition["page_id"]] is read before anything else. *)
Lemma no_partition_is_a_type_error
    (L : pylib) (self : stream_config) (now : Z) (c : stream_class) (tok : json) :
  get_url_params L self now c None tok = Raise TypeError
  /\ FacebookPagesStream.get_url_params L self None tok = Raise TypeError.
Proof. by destruct c. Qed.

(** [X9] The first PageInsights request with a stored cursor [since = T]
    never asks beyond the clock: [until <= now]; when the cursor is at least
    one day old the window is well formed, [since <= until]; and the request
    also carries [limit = 100] and the joined metric list. *)
Theorem page_insights_first_window_bounds
    (L : pylib) (self : stream_config) (now T : Z) (p : page_partition)
    (tok : json) :
  truthy tok = false ->
  get_starting_timestamp L p = Some T ->
  exists params until,
    PageInsights.get_url_params L self now (Some p) tok = Ok params
    /\ params !! "since" = Some (PInt T)
    /\ params !! "until" = Some (PInt until)
    /\ until <= now
    /\ (T <= now - 86400 -> T <= until)
    /\ params !! "limit" = Some (PInt 100)
    /\ params !! "metric" = Some (PStr (join_comma (metrics self))).
Proof.
  intros Htok Hstart.
  destruct (base_first_request_lookups L self p tok Htok)
    as (params & Hbase & Hlimit & _ & Hsince & _).
  rewrite Hstart in Hsince. simpl in Hsince.
  unfold PageInsights.get_url_params. rewrite Hbase. simpl. rewrite Htok. simpl.
  unfold PageInsights.first_window. rewrite Hsince. simpl.
  unfold timedelta_seconds.
  eexists _, (if T + 8035200 <=? now then T + 8035200 else now - 1 * 86400).
  split; [reflexivity|].
  repeat split; try by simplify_map_eq.
  - destruct (Z.leb_spec (T + 8035200) now); lia.
  - destruct (Z.leb_spec (T + 8035200) now); lia.
Qed.

Lemma page_insights_first_window_bounds_witness :
  truthy JNull = false
  /\ get_starting_timestamp (PlainLib.lib (Some 1699990000)) (Partition "1")
     = Some 1699990000
  /\ exists params,
       PageInsights.get_url_params (PlainLib.lib (Some 1699990000))
         Fixtures.config Fixtures.now (Some (Partition "1")) JNull = Ok params
       /\ exists until, params !! "until" = Some (PInt until)
                        /\ until <= Fixtures.now.
Proof.
  split; [reflexivity|]. split; [reflexivity|].
  destruct (page_insights_first_window_bounds (PlainLib.lib (Some 1699990000))
              Fixtures.config Fixtures.now 1699990000 (Partition "1") JNull
              eq_refl eq_refl)
    as (params & until & Hparams & _ & Huntil & Hle & _).
  exists params. split; [exact Hparams|]. by exists until.
Defined.

(** ** PageInsights: the tokens it returns are tokens it accepts *)

Lemma int_param_Ok (L : pylib) (key : string) (q : gmap string (list string))
    (n : Z) :
  PageInsights.int_param L key q = Ok n ->
  exists x rest, q !! key = Some (x :: rest) /\ int_of_str L x = Ok n.
Proof.
  unfold PageInsights.int_param.
  destruct (q !! key) as [[|x rest]|]; try discriminate.
  intros H. by exists x, rest.
Qed.

(** What a token returned by [get_next_page_token] is known to satisfy. *)
Lemma page_insights_token_checked (L : pylib) (now : Z)
    (resp_json previous_token tok : json) :
  PageInsights.get_next_page_token L now resp_json previous_token = Ok tok ->
  truthy tok = true ->
  exists q since until,
    FacebookPagesStream.token_query L tok = Ok q
    /\ PageInsights.int_param L "since" q = Ok since
    /\ PageInsights.int_param L "until" q = Ok until
    /\ since < now - 172800
    /\ ~ (now <= until <= now + 172800).
Proof.
  unfold PageInsights.get_next_page_token, bind.
  destruct (py_in "paging" resp_json) as [[]|]; try discriminate;
    [|by intros [= <-]].
  destruct (py_getitem resp_json "paging") as [paging|]; [|discriminate].
  destruct (py_in "next" paging) as [[]|]; try discriminate;
    [|by intros [= <-]].
  destruct (py_getitem paging "next") as [next|]; [|discriminate].
  destruct (FacebookPagesStream.token_query L next) as [q|] eqn:Hq; [|discriminate].
  destruct (PageInsights.int_param L "since" q) as [since|] eqn:Hs; [|discriminate].
  destruct (PageInsights.int_param L "until" q) as [until|] eqn:Hu; [|discriminate].
  unfold timedelta_seconds.
  destruct (Z.geb_spec since (now - 2 * 86400));
    destruct (Z.geb_spec until now);
    destruct (Z.leb_spec until (now + 2 * 86400)); simpl;
    intros [= <-]; try discriminate; intros _;
    exists q, since, until; repeat split; solve [done | lia].
Qed.

Lemma page_insights_token_request
    (L : pylib) (self : stream_config) (now : Z) (p : page_partition)
    (tok : json) (q : gmap string (list string)) (until : string)
    (rest : list string) (n : Z) :
  truthy tok = true ->
  FacebookPagesStream.token_query L tok = Ok q ->
  q !! "until" = Some (until :: rest) ->
  int_of_str L until = Ok n ->
  PageInsights.get_url_params L self now (Some p) tok
  = Ok (<["metric" := PStr (join_comma (metrics self))]>
          (if n >? now
           then <["until" := PList (py_str (now - 86400) :: rest)]> (PList <$> q)
           else PList <$> q)).
Proof.
  intros Htok Hq Huntil Hint.
  unfold PageInsights.get_url_params.
  rewrite (base_token_request L self p tok q Htok Hq). simpl. rewrite Htok. simpl.
  unfold PageInsights.clamp_token_until.
  rewrite lookup_fmap, Huntil. simpl. rewrite Hint. simpl.
  unfold timedelta_seconds. by destruct (n >? now).
Qed.

(** [X10] A non-empty token returned by [PageInsights.get_next_page_token]
    is one [PageInsights.get_url_params] builds a request from, at any later
    clock: its [since] and [until] were parsed as integers when it was
    returned, so the builder raises neither [KeyError] nor [ValueError] on
    it; and the link's window started more than two days before the clock at
    which it was returned. *)
Theorem page_insights_token_is_accepted
    (L : pylib) (self : stream_config) (now later : Z) (p : page_partition)
    (resp_json previous_token tok : json) :
  PageInsights.get_next_page_token L now resp_json previous_token = Ok tok ->
  truthy tok = true ->
  (exists params,
      PageInsights.get_url_params L self later (Some p) tok = Ok params
      /\ params !! "metric" = Some (PStr (join_comma (metrics self))))
  /\ exists q since,
       FacebookPagesStream.token_query L tok = Ok q
       /\ PageInsights.int_param L "since" q = Ok since
       /\ since < now - 172800.
Proof.
  intros Hnext Htok.
  destruct (page_insights_token_checked L now _ _ _ Hnext Htok)
    as (q & since & until & Hq & Hsince & Huntil & Hold & _).
  split; [|by exists q, since].
  destruct (int_param_Ok L "until" q until Huntil) as (u & rest & Hu & Hint).
  rewrite (page_insights_token_request L self later p tok q u rest until
             Htok Hq Hu Hint).
  eexists. split; [reflexivity|]. apply lookup_insert_eq.
Qed.

Lemma page_insights_token_is_accepted_witness :
  PageInsights.get_next_page_token (PlainLib.lib None) Fixtures.now
    (JObj (Fixtures.insights_page Fixtures.past_url)) JNull
  = Ok (JStr Fixtures.past_url)
  /\ truthy (JStr Fixtures.past_url) = true
  /\ exists params,
       PageInsights.get_url_params (PlainLib.lib None) Fixtures.config
         (Fixtures.now + 3600) (Some (Partition "1")) (JStr Fixtures.past_url)
       = Ok params
       /\ params !! "metric" = Some (PStr "page_fans").
Proof.
  split; [reflexivity|]. split; [reflexivity|].
  exact (proj1 (page_insights_token_is_accepted (PlainLib.lib None) Fixtures.config
                  Fixtures.now (Fixtures.now + 3600) (Partition "1")
                  (JObj (Fixtures.insights_page Fixtures.past_url)) JNull
                  (JStr Fixtures.past_url) eq_refl eq_refl)).
Defined.

(** ** Flatteners: missing keys and failures part-way *)

(** A loop whose body fails on one element: the rows of the elements before
    it, and those the failing body yielded, are out; the rest is not run. *)
Lemma gen_for_stops {A} (rows : A -> list json) (body : A -> gen unit)
    (before : list A) (bad : A) (after : list A) (partial : list json) (e : exc) :
  Forall (fun x => body x = Gen (rows x) (Ok tt)) before ->
  body bad = Gen partial (Raise e) ->
  gen_for (before ++ bad :: after) body
  = Gen (flat_map rows before ++ partial) (Raise e).
Proof.
  intros Hbefore Hbad. induction Hbefore as [|x before Hx _ IH]; simpl.
  - rewrite Hbad. by gen_step.
  - rewrite Hx, IH. gen_step. by rewrite app_assoc.
Qed.

(** [X11] On a response whose posts have the API's shape,
    [PostTaggedProfile] yields, post by post, one row per entry of
    [to.data], each with the post's [page_id], [post_id] and
    [post_created_time]; a post without [to] contributes no row and no
    error. *)
Theorem tagged_profiles_flattened (page_id : string) (resp : pydict)
    (posts : list json) :
  dict_get "data" resp = Some (JList posts) ->
  forallb tagged_post_ok posts = true ->
  PostTaggedProfile.parse_response page_id (JObj resp)
  = Gen (flat_map (tagged_profile_rows page_id) posts) (Ok tt)
  /\ (forall rd, In (JObj rd) posts -> dict_get "to" rd = None ->
                 tagged_profile_rows page_id (JObj rd) = [])
  /\ (forall post row,
        In post posts -> In row (tagged_profile_rows page_id post) ->
        Spec.tagged (Spec.parent_info page_id post) row).
Proof.
  intros Hdata Hposts. split; [|split].
  - unfold PostTaggedProfile.parse_response. simpl py_getitem. rewrite Hdata.
    gen_step. apply gen_for_rows, Forall_forall. intros post Hpost.
    rewrite forallb_forall in Hposts.
    specialize (Hposts post (proj1 (list_elem_of_In _ _) Hpost)).
    destruct post as [| | | | |rd]; try discriminate.
    unfold tagged_post_ok, tagged_profile_rows, tagged_profiles,
      Spec.parent_info, dict_mem in *.
    simpl py_getitem. simpl py_in. unfold dict_mem.
    destruct (dict_get "id" rd) as [post_id|]; [|discriminate].
    destruct (dict_get "created_time" rd) as [created_time|]; [|discriminate].
    simpl default.
    destruct (dict_get "to" rd) as [[| | | | |to]|]; try discriminate.
    + destruct (dict_get "data" to) as [[| | | |l|]|] eqn:Hto; try discriminate.
      simpl in Hposts. gen_step. rewrite Hto. gen_step.
      by apply tag_rows.
    + by gen_step.
  - intros rd _ Hto. unfold tagged_profile_rows, tagged_profiles. by rewrite Hto.
  - intros post row Hpost Hrow.
    rewrite forallb_forall in Hposts. specialize (Hposts post Hpost).
    destruct post as [| | | | |rd]; try discriminate.
    unfold tagged_profile_rows, tagged_profiles in Hrow.
    unfold tagged_post_ok in Hposts.
    apply in_map_iff in Hrow as (profile & <- & Hprofile).
    destruct (dict_get "to" rd) as [[| | | | |to]|]; try done.
    destruct (dict_get "data" to) as [[| | | |l|]|]; try done.
    apply andb_true_iff in Hposts as [_ Hl].
    rewrite forallb_forall in Hl. specialize (Hl profile Hprofile).
    destruct profile; try discriminate.
    apply tagged_update, parent_info_NoDup.
Qed.

Lemma tagged_profiles_flattened_witness :
  dict_get "data" Fixtures.tagged_response = Some (JList Fixtures.tagged_posts)
  /\ forallb tagged_post_ok Fixtures.tagged_posts = true
  /\ PostTaggedProfile.parse_response "42" (JObj Fixtures.tagged_response)
     = Gen [JObj [("id", JStr "7"); ("name", JStr "Ada"); ("page_id", JStr "42");
                  ("post_id", JStr "p2"); ("post_created_time", JStr "t2")]]
           (Ok tt).
Proof.
  split; [reflexivity|]. split; [reflexivity|].
  exact (proj1 (tagged_profiles_flattened "42" Fixtures.tagged_response
                  Fixtures.tagged_posts eq_refl eq_refl)).
Defined.

(** [X12] A PageInsights metric needs [name], [period], [title] and [id]
    whether or not it has values: with the four keys and no [values] key it
    contributes no row and no error; without one of them it raises
    [KeyError] on the first that is missing, before any row. *)
Theorem metric_without_values (row : pydict) :
  (dict_mem "name" row = true -> dict_mem "period" row = true ->
   dict_mem "title" row = true -> dict_mem "id" row = true ->
   dict_get "values" row = None ->
   PageInsights.metric_rows (JObj row) = Gen [] (Ok tt))
  /\ (forall key,
        In key ["name"; "period"; "title"; "id"] ->
        dict_get key row = None ->
        exists missing,
          PageInsights.metric_rows (JObj row) = Gen [] (Raise (KeyError missing))
          /\ In missing ["name"; "period"; "title"; "id"]).
Proof.
  unfold PageInsights.metric_rows, dict_mem. simpl py_getitem. simpl py_in.
  unfold dict_mem. split.
  - destruct (dict_get "name" row); [|discriminate].
    destruct (dict_get "period" row); [|discriminate].
    destruct (dict_get "title" row); [|discriminate].
    destruct (dict_get "id" row); [|discriminate].
    intros _ _ _ _ ->. by gen_step.
  - intros key Hkey Hnone.
    destruct (dict_get "name" row) eqn:Hn;
      [|exists "name"; gen_step; split; [done | by left]].
    destruct (dict_get "period" row) eqn:Hp;
      [|exists "period"; gen_step; split; [done | by right; left]].
    destruct (dict_get "title" row) eqn:Ht;
      [|exists "title"; gen_step; split; [done | by right; right; left]].
    destruct (dict_get "id" row) eqn:Hi;
      [|exists "id"; gen_step; split; [done | by right; right; right; left]].
    exfalso. simpl in Hkey.
    destruct Hkey as [<-|[<-|[<-|[<-|[]]]]]; congruence.
Qed.

Lemma metric_without_values_witness :
  dict_get "values"
    [("name", JStr "page_fans"); ("period", JStr "day"); ("title", JNull);
     ("id", JStr "1/insights/page_fans/day")] = None
  /\ PageInsights.metric_rows
       (JObj [("name", JStr "page_fans"); ("period", JStr "day"); ("title", JNull);
              ("id", JStr "1/insights/page_fans/day")])
     = Gen [] (Ok tt).
Proof.
  split; [reflexivity|].
  exact (proj1 (metric_without_values
                  [("name", JStr "page_fans"); ("period", JStr "day");
                   ("title", JNull); ("id", JStr "1/insights/page_fans/day")])
           eq_refl eq_refl eq_refl eq_refl eq_refl).
Defined.

(** [X13] A PageInsights [values] entry without [value] raises [KeyError];
    one whose [value] is a non-empty mapping needs [end_time] and raises
    [KeyError] before any row when it is missing; one whose [value] is the
    empty mapping yields nothing and raises nothing, with or without
    [end_time]. *)
Theorem values_entry_missing_keys (base_item entry : pydict) :
  (dict_get "value" entry = None ->
   PageInsights.values_rows base_item (JObj entry)
   = Gen [] (Raise (KeyError "value")))
  /\ (forall kv mapping,
        dict_get "value" entry = Some (JObj (kv :: mapping)) ->
        dict_get "end_time" entry = None ->
        PageInsights.values_rows base_item (JObj entry)
        = Gen [] (Raise (KeyError "end_time")))
  /\ (dict_get "value" entry = Some (JObj []) ->
      PageInsights.values_rows base_item (JObj entry) = Gen [] (Ok tt)).
Proof.
  unfold PageInsights.values_rows. simpl py_getitem. split; [|split].
  - intros ->. by gen_step.
  - intros kv mapping -> Hend. gen_step. rewrite Hend. by gen_step.
  - intros ->. by gen_step.
Qed.

Lemma values_entry_missing_keys_witness :
  dict_get "value" [("value", JObj [("a", JInt 1)])] = Some (JObj [("a", JInt 1)])
  /\ dict_get "end_time" [("value", JObj [("a", JInt 1)])] = None
  /\ PageInsights.values_rows [] (JObj [("value", JObj [("a", JInt 1)])])
     = Gen [] (Raise (KeyError "end_time")).
Proof.
  split; [reflexivity|]. split; [reflexivity|].
  exact (proj1 (proj2 (values_entry_missing_keys []
                         [("value", JObj [("a", JInt 1)])]))
           ("a", JInt 1) [] eq_refl eq_refl).
Defined.

(** [X14] [PostInsights] has no guard on [insights]: a post without that
    key makes it raise [KeyError], after the rows of the posts before it
    have been yielded; the posts after it are not read. *)
Theorem post_without_insights_raises (page_id : string) (resp : pydict)
    (before : list json) (rows : json -> list json) (post : pydict)
    (after : list json) :
  dict_get "data" resp = Some (JList (before ++ JObj post :: after)) ->
  Forall (fun b => PostInsights.post_rows page_id b = Gen (rows b) (Ok tt)) before ->
  dict_get "insights" post = None ->
  PostInsights.parse_response page_id (JObj resp)
  = Gen (flat_map rows before) (Raise (KeyError "insights")).
Proof.
  intros Hdata Hbefore Hpost.
  unfold PostInsights.parse_response. simpl py_getitem. rewrite Hdata. gen_step.
  rewrite (gen_for_stops rows _ before (JObj post) after [] (KeyError "insights"));
    [by rewrite app_nil_r | exact Hbefore |].
  unfold PostInsights.post_rows. simpl py_getitem. rewrite Hpost. by gen_step.
Qed.

Lemma post_without_insights_raises_witness :
  dict_get "data"
    [("data", JList ([JObj [("id", JStr "p0");
                            ("insights", JObj [("data", JList [])])]]
                     ++ JObj [("id", JStr "p1")] :: [JObj []]))]
  = Some (JList ([JObj [("id", JStr "p0"); ("insights", JObj [("data", JList [])])]]
                 ++ JObj [("id", JStr "p1")] :: [JObj []]))
  /\ dict_get "insights" [("id", JStr "p1")] = None
  /\ PostInsights.parse_response "42"
       (JObj [("data", JList [JObj [("id", JStr "p0");
                                    ("insights", JObj [("data", JList [])])];
                              JObj [("id", JStr "p1")]; JObj []])])
     = Gen [] (Raise (KeyError "insights")).
Proof.
  split; [reflexivity|]. split; [reflexivity|].
  refine (post_without_insights_raises "42"
            [("data", JList ([JObj [("id", JStr "p0");
                                    ("insights", JObj [("data", JList [])])]]
                             ++ JObj [("id", JStr "p1")] :: [JObj []]))]
            [JObj [("id", JStr "p0"); ("insights", JObj [("data", JList [])])]]
            (fun _ => []) [("id", JStr "p1")] [JObj []] eq_refl _ eq_refl).
  repeat constructor.
Defined.

(** ** Log redaction: what is masked and what is left alone *)

Lemma alnum_run_token (tok rest : string) :
  all_alnum tok = true ->
  FacebookPagesStream.alnum_run (tok ++ String "&" rest)%string = String.length tok.
Proof.
  induction tok as [|c tok IH]; simpl; [done|].
  intros [Hc Htok]%andb_true_iff. rewrite Hc. by rewrite IH.
Qed.

Lemma drop_string_app (a b : string) :
  FacebookPagesStream.drop_string (String.length a) (a ++ b)%string = b.
Proof. induction a as [|c a IH]; simpl; [by destruct b | exact IH]. Qed.

Lemma re_sub_from_skip (a b : string) :
  FacebookPagesStream.re_sub_from (String.length a) (a ++ b)%string
  = FacebookPagesStream.re_sub_from 0 b.
Proof. induction a as [|c a IH]; simpl; [done | exact IH]. Qed.

Lemma string_app_assoc (a b c : string) :
  ((a ++ b) ++ c = a ++ (b ++ c))%string.
Proof.
  induction a as [|x a IH]; [reflexivity|].
  change (String x ((a ++ b) ++ c) = String x (a ++ (b ++ c)))%string.
  by f_equal.
Qed.

Lemma string_length_app (a b : string) :
  String.length (a ++ b)%string = (String.length a + String.length b)%nat.
Proof.
  induction a as [|x a IH]; [reflexivity|].
  change (S (String.length (a ++ b)%string)
          = S (String.length a + String.length b)%nat).
  by f_equal.
Qed.

Lemma append_cons (c : ascii) (a b : string) :
  (String c a ++ b)%string = String c (a ++ b)%string.
Proof. reflexivity. Qed.

Lemma append_nil (b : string) : ("" ++ b)%string = b.
Proof. reflexivity. Qed.

Lemma prefix_append (a b : string) : String.prefix a (a ++ b)%string = true.
Proof.
  induction a as [|c a IH]; [by destruct b|].
  rewrite append_cons. cbn [String.prefix]. by destruct (ascii_dec c c).
Qed.

Lemma match_at_head (tok rest : string) :
  all_alnum tok = true -> tok <> EmptyString ->
  FacebookPagesStream.match_access_token
    ("access_token=" ++ tok ++ String "&" rest)%string
  = Some (13 + String.length tok + 1)%nat.
Proof.
  intros Halnum Hne. unfold FacebookPagesStream.match_access_token.
  rewrite prefix_append.
  replace (FacebookPagesStream.drop_string 13
             ("access_token=" ++ tok ++ String "&" rest)%string)
    with (tok ++ String "&" rest)%string
    by (symmetry; apply (drop_string_app "access_token=")).
  cbn zeta. rewrite (alnum_run_token tok rest Halnum).
  destruct (String.length tok) as [|n] eqn:Hlen; [by destruct tok|].
  by rewrite <- Hlen, drop_string_app.
Qed.

Lemma re_sub_from_match (c : ascii) (s : string) (len : nat) :
  FacebookPagesStream.match_access_token (String c s) = Some len ->
  FacebookPagesStream.re_sub_from 0 (String c s)
  = ("access_token=*****&" ++ FacebookPagesStream.re_sub_from (len - 1) s)%string.
Proof. intros H. cbn [FacebookPagesStream.re_sub_from]. by rewrite H. Qed.

(** The pattern at the head of the string, with a token of letters and
    digits: the token is replaced and the scan resumes after the [&]. *)
Lemma redact_at_head (tok rest : string) :
  all_alnum tok = true -> tok <> EmptyString ->
  FacebookPagesStream.redact_access_token
    ("access_token=" ++ tok ++ String "&" rest)%string
  = ("access_token=*****&" ++ FacebookPagesStream.redact_access_token rest)%string.
Proof.
  intros Halnum Hne.
  unfold FacebookPagesStream.redact_access_token.
  pose proof (match_at_head tok rest Halnum Hne) as Hmatch.
  rewrite append_cons in Hmatch |- *.
  rewrite (re_sub_from_match _ _ _ Hmatch). f_equal.
  replace (13 + String.length tok + 1 - 1)%nat
    with (String.length ("ccess_token=" ++ tok ++ "&")%string)
    by (rewrite !string_length_app; simpl; lia).
  rewrite <- (re_sub_from_skip ("ccess_token=" ++ tok ++ "&") rest).
  by rewrite !string_app_assoc.
Qed.

Lemma prefix_cons (a b : ascii) (s t : string) :
  String.prefix (String a s) (String b t)
  = if Ascii.eqb a b then String.prefix s t else false.
Proof.
  cbn [String.prefix].
  destruct (ascii_dec a b) as [->|Hne]; [by rewrite Ascii.eqb_refl|].
  by destruct (Ascii.eqb_spec a b).
Qed.

(** A match cannot begin inside a prefix that does not contain the
    parameter name and end inside the parameter that follows it. *)
Lemma no_straddling_match (b rest : string) :
  b <> EmptyString ->
  String.prefix "access_token=" (b ++ "access_token=" ++ rest)%string = true ->
  String.prefix "access_token=" b = true.
Proof.
  intros Hb H.
  do 13 (destruct b as [|? b];
         [first [contradiction
                | rewrite append_nil, append_cons, prefix_cons in H;
                  simpl in H; discriminate H]|];
         rewrite append_cons, prefix_cons in H; rewrite prefix_cons;
         match goal with
         | |- context [Ascii.eqb ?x ?y] =>
             destruct (Ascii.eqb_spec x y) as [<-|]; [|discriminate H]
         end).
  by destruct b.
Qed.

Lemma no_match_without_prefix (s : string) :
  String.prefix "access_token=" s = false ->
  FacebookPagesStream.match_access_token s = None.
Proof. unfold FacebookPagesStream.match_access_token. by intros ->. Qed.

Lemma is_substring_cons (needle : string) (c : ascii) (s : string) :
  is_substring needle (String c s) = false ->
  String.prefix needle (String c s) = false /\ is_substring needle s = false.
Proof.
  cbn [is_substring]. by destruct (String.prefix needle (String c s)).
Qed.

(** [X15] When the first [access_token=] of a URL is followed by a token of
    letters and digits and then [&], the logged line has the mask in place
    of the token: what stands before the parameter is kept, and what follows
    the [&] is redacted in the same way. *)
Theorem first_access_token_is_masked (before tok rest : string) :
  is_substring "access_token=" before = false ->
  all_alnum tok = true -> tok <> EmptyString ->
  FacebookPagesStream.redact_access_token
    (before ++ "access_token=" ++ tok ++ String "&" rest)%string
  = (before ++ "access_token=*****&"
     ++ FacebookPagesStream.redact_access_token rest)%string.
Proof.
  intros Hbefore Halnum Hne.
  induction before as [|c before IH].
  - by apply redact_at_head.
  - apply is_substring_cons in Hbefore as [Hprefix Hrest].
    unfold FacebookPagesStream.redact_access_token in *.
    rewrite !append_cons. cbn [FacebookPagesStream.re_sub_from].
    rewrite no_match_without_prefix.
    + f_equal. by apply IH.
    + destruct (String.prefix "access_token="
                  (String c (before ++ "access_token=" ++ tok ++ String "&" rest)))
        eqn:Hp; [|done].
      rewrite <- append_cons in Hp.
      rewrite (no_straddling_match (String c before) (tok ++ String "&" rest))
        in Hprefix; done.
Qed.

Lemma first_access_token_is_masked_witness :
  is_substring "access_token="
    "https://graph.facebook.com/v10.0/1/posts?since=1&" = false
  /\ all_alnum "ABCD1234" = true
  /\ FacebookPagesStream.redact_access_token
       "https://graph.facebook.com/v10.0/1/posts?since=1&access_token=ABCD1234&limit=100"
     = "https://graph.facebook.com/v10.0/1/posts?since=1&access_token=*****&limit=100".
Proof.
  split; [reflexivity|]. split; [reflexivity|].
  refine (first_access_token_is_masked
            "https://graph.facebook.com/v10.0/1/posts?since=1&" "ABCD1234"
            "limit=100" eq_refl eq_refl _).
  discriminate.
Defined.

(** [X16] A URL without [access_token=] is logged as it is. *)
Theorem url_without_token_is_unchanged (url : string) :
  is_substring "access_token=" url = false ->
  FacebookPagesStream.redact_access_token url = url.
Proof.
  unfold FacebookPagesStream.redact_access_token.
  induction url as [|c url IH]; [done|].
  intros [Hprefix Hrest]%is_substring_cons.
  cbn [FacebookPagesStream.re_sub_from].
  rewrite (no_match_without_prefix _ Hprefix). f_equal. by apply IH.
Qed.

Lemma url_without_token_is_unchanged_witness :
  is_substring "access_token=" "https://graph.facebook.com/v10.0/1/posts?limit=100"
  = false
  /\ FacebookPagesStream.redact_access_token
       "https://graph.facebook.com/v10.0/1/posts?limit=100"
     = "https://graph.facebook.com/v10.0/1/posts?limit=100".
Proof.
  split; [reflexivity|].
  exact (url_without_token_is_unchanged
           "https://graph.facebook.com/v10.0/1/posts?limit=100" eq_refl).
Defined.


(** ** State migration and post-processing *)

Lemma dict_mem_set_present (k k' : string) (v : json) (d : pydict) :
  dict_mem k' d = true -> dict_mem k (dict_set k' v d) = dict_mem k d.
Proof.
  unfold dict_mem. intros Hk'.
  destruct (String.eqb_spec k k') as [->|Hne].
  - rewrite dict_get_set_eq. by destruct (dict_get k' d).
  - by rewrite dict_get_set_ne.
Qed.

(** [X17] Whatever the stored state, the state returned by
    [get_stream_or_partition_state] never holds a list under
    ["progress_markers"]; it has the keys of the stored state, with the same
    values under every other key; and a state without the key is returned
    as it is. *)
Theorem returned_state_has_no_marker_list
    (stream_state : pydict) (get_partition_state : page_partition -> pydict)
    (partition : option page_partition) :
  let state := match partition with
               | Some p => get_partition_state p
               | None => stream_state
               end in
  let state' :=
    FacebookPagesStream.get_stream_or_partition_state
      stream_state get_partition_state partition in
  (forall v, dict_get "progress_markers" state' = Some v -> is_list v = false)
  /\ (forall k, dict_mem k state' = dict_mem k state)
  /\ (forall k, k <> "progress_markers" -> dict_get k state' = dict_get k state)
  /\ (dict_get "progress_markers" state = None -> state' = state).
Proof.
  intros state state'. subst state'.
  unfold FacebookPagesStream.get_stream_or_partition_state. fold state.
  destruct (dict_mem "progress_markers" state) eqn:Hmem; simpl.
  - unfold dict_mem in Hmem.
    destruct (dict_get "progress_markers" state) as [markers|] eqn:Hget;
      [|discriminate]. simpl.
    destruct (is_list markers) eqn:Hlist.
    + split; [|split; [|split]].
      * intros v. rewrite dict_get_set_eq. by intros [= <-].
      * intros k. apply dict_mem_set_present. unfold dict_mem. by rewrite Hget.
      * intros k Hk. by apply dict_get_set_ne.
      * discriminate.
    + split; [|split; [|split]]; try done.
      intros v. rewrite Hget. by intros [= <-].
  - split; [|split; [|split]]; try done.
    intros v Hv. unfold dict_mem in Hmem. by rewrite Hv in Hmem.
Qed.

Lemma dict_set_twice (k : string) (v : json) (d : pydict) :
  dict_set k v (dict_set k v d) = dict_set k v d.
Proof.
  induction d as [|[k' v'] d IH]; simpl.
  - by rewrite String.eqb_refl.
  - destruct (String.eqb k k') eqn:E; simpl; rewrite E; [done | by rewrite IH].
Qed.

(** [X18] [post_process] writes the partition's [page_id] into the row; on
    a row that [Posts.parse_response] yielded for that page it changes
    nothing; a partition without [page_id] leaves every row as it is. *)
Theorem post_process_keeps_tagged_rows
    (partition row : pydict) (page_id : string) :
  (dict_get "page_id" partition = Some (JStr page_id) ->
   FacebookPagesStream.post_process (JObj row) (Some partition)
   = Ok (with_page_id page_id row)
   /\ FacebookPagesStream.post_process (with_page_id page_id row) (Some partition)
      = Ok (with_page_id page_id row))
  /\ (dict_get "page_id" partition = None ->
      FacebookPagesStream.post_process (JObj row) (Some partition) = Ok (JObj row)).
Proof.
  unfold FacebookPagesStream.post_process, with_page_id. split.
  - intros ->. simpl. by rewrite dict_set_twice.
  - by intros ->.
Qed.

Lemma post_process_keeps_tagged_rows_witness :
  dict_get "page_id" [("page_id", JStr "1")] = Some (JStr "1")
  /\ FacebookPagesStream.post_process
       (JObj [("id", JStr "a"); ("page_id", JStr "1")])
       (Some [("page_id", JStr "1")])
     = Ok (JObj [("id", JStr "a"); ("page_id", JStr "1")]).
Proof.
  split; [reflexivity|].
  exact (proj2 (proj1 (post_process_keeps_tagged_rows [("page_id", JStr "1")]
                         [("id", JStr "a")] "1") eq_refl)).
Defined.

(** ** Next-page tokens *)

(** [X19] The base [get_next_page_token] ignores the previous token: it
    returns [paging.next] when the response has one, [None] when [paging] or
    [paging.next] is absent, and raises [TypeError] when [paging] is null or
    a number, on which [in] is not defined. *)
Theorem base_next_page_token_cases (resp : pydict) (previous_token : json) :
  (dict_get "paging" resp = None ->
   FacebookPagesStream.get_next_page_token (JObj resp) previous_token = Ok JNull)
  /\ (forall paging,
        dict_get "paging" resp = Some (JObj paging) ->
        FacebookPagesStream.get_next_page_token (JObj resp) previous_token
        = Ok (default JNull (dict_get "next" paging)))
  /\ (forall paging,
        dict_get "paging" resp = Some paging ->
        paging = JNull \/ (exists n, paging = JInt n) \/ (exists b, paging = JBool b) ->
        FacebookPagesStream.get_next_page_token (JObj resp) previous_token
        = Raise TypeError).
Proof.
  unfold FacebookPagesStream.get_next_page_token. simpl py_in. unfold dict_mem.
  split; [|split].
  - by intros ->.
  - intros paging Hpaging. rewrite Hpaging. cbn [bind py_getitem].
    rewrite Hpaging. cbn [bind py_in]. unfold dict_mem.
    destruct (dict_get "next" paging) eqn:Hnext; cbn [bind py_getitem];
      rewrite ?Hpaging; cbn [bind py_getitem]; by rewrite ?Hnext.
  - intros paging Hpaging Hshape. rewrite Hpaging. cbn [bind py_getitem].
    rewrite Hpaging. by destruct Hshape as [->|[[n ->]|[b ->]]].
Qed.

Lemma base_next_page_token_cases_witness :
  dict_get "paging" [("data", JList []); ("paging", JNull)] = Some JNull
  /\ FacebookPagesStream.get_next_page_token
       (JObj [("data", JList []); ("paging", JNull)]) (JStr "previous")
     = Raise TypeError.
Proof.
  split; [reflexivity|].
  refine (proj2 (proj2 (base_next_page_token_cases
                          [("data", JList []); ("paging", JNull)] (JStr "previous")))
            JNull eq_refl _).
  by left.
Defined.

(** ** PageInsights: a run ends at a stalled window *)

Lemma page_insights_next_suppressed (L : pylib) (now : Z) (resp paging : pydict)
    (next previous_token : json) (q : gmap string (list string))
    (since until : Z) :
  dict_get "paging" resp = Some (JObj paging) ->
  dict_get "next" paging = Some next ->
  FacebookPagesStream.token_query L next = Ok q ->
  PageInsights.int_param L "since" q = Ok since ->
  PageInsights.int_param L "until" q = Ok until ->
  since >= now - 172800 \/ now <= until <= now + 172800 ->
  PageInsights.get_next_page_token L now (JObj resp) previous_token = Ok JNull.
Proof.
  intros Hpaging Hnext Hq Hsince Huntil Hstall.
  unfold PageInsights.get_next_page_token. simpl py_in. unfold dict_mem.
  rewrite Hpaging. cbn [bind py_getitem py_in]. rewrite Hpaging.
  cbn [bind py_in]. unfold dict_mem. rewrite Hnext. cbn [bind py_getitem].
  rewrite Hnext. cbn [bind]. rewrite Hq. cbn [bind].
  rewrite Hsince. cbn [bind]. rewrite Huntil. cbn [bind].
  unfold timedelta_seconds.
  destruct (Z.geb_spec since (now - 2 * 86400));
    destruct (Z.geb_spec until now);
    destruct (Z.leb_spec until (now + 2 * 86400)); simpl; solve [done | lia].
Qed.

(** [X20] A PageInsights run on a partition with a stored cursor ends at the
    first page whose next link is stalled ([since] within two days of the
    clock, or [until] between the clock and two days later): one request is
    sent, the rows of that page are emitted, and the run finishes instead of
    following the link. *)
Theorem page_insights_run_ends_at_stalled_window {World : Type}
    (L : pylib) (self : stream_config) (clock : World -> Z)
    (server : FacebookPagesStream.prepared_request -> World ->
              World * result (result json))
    (w w' : World) (p : page_partition) (T : Z) (fuel : nat)
    (resp paging : pydict) (next : json) (q : gmap string (list string))
    (since until : Z) :
  get_starting_timestamp L p = Some T ->
  (forall req, server req w = (w', Ok (Ok (JObj resp)))) ->
  outcome (PageInsights.parse_response (JObj resp)) = Ok tt ->
  dict_get "paging" resp = Some (JObj paging) ->
  dict_get "next" paging = Some next ->
  FacebookPagesStream.token_query L next = Ok q ->
  PageInsights.int_param L "since" q = Ok since ->
  PageInsights.int_param L "until" q = Ok until ->
  since >= clock w' - 172800 \/ clock w' <= until <= clock w' + 172800 ->
  let run := page_insights_request_records L self clock server (S fuel) w (Some p) in
  snd run = RequestRecords.Finished
  /\ RequestRecords.emitted (fst run)
     = yielded (PageInsights.parse_response (JObj resp))
  /\ map fst (RequestRecords.requests (fst run)) = [JNull]
  /\ RequestRecords.next_page_token (fst run) = JNull.
Proof.
  intros Hstart Hserver Hparse Hpaging Hnext Hq Hsince Huntil Hstall.
  unfold page_insights_request_records, RequestRecords.request_records.
  cbn [RequestRecords.loop].
  assert (exists req line,
             page_insights_prepare_request L self clock w (Some p) JNull
             = Ok (req, line)) as (req & line & Hprep).
  { unfold page_insights_prepare_request, FacebookPagesStream.prepare_request.
    simpl.
    destruct (base_first_request_lookups L self p JNull eq_refl)
      as (params & Hbase & _ & _ & Hs & _).
    rewrite Hstart in Hs. simpl in Hs.
    unfold PageInsights.get_url_params. rewrite Hbase. simpl.
    unfold PageInsights.first_window. rewrite Hs. simpl. by eexists _, _. }
  erewrite iteration_last_page;
    [| exact Hprep | apply Hserver | exact Hparse
     | unfold page_insights_get_next_page_token; cbn [bind];
       eapply page_insights_next_suppressed; eassumption
     | reflexivity].
  by simpl.
Qed.

Lemma page_insights_run_ends_at_stalled_window_witness :
  get_starting_timestamp (PlainLib.lib (Some 1699000000)) (Partition "1")
  = Some 1699000000
  /\ (let run :=
        page_insights_request_records (PlainLib.lib (Some 1699000000))
          Fixtures.config (fun _ : unit => Fixtures.now)
          (fun _ w => (w, Ok (Ok (JObj (Fixtures.insights_page Fixtures.stalled_url)))))
          1 tt (Some (Partition "1")) in
      snd run = RequestRecords.Finished
      /\ map fst (RequestRecords.requests (fst run)) = [JNull]).
Proof.
  split; [reflexivity|].
  destruct (page_insights_run_ends_at_stalled_window
              (PlainLib.lib (Some 1699000000)) Fixtures.config
              (fun _ : unit => Fixtures.now)
              (fun _ w => (w, Ok (Ok (JObj (Fixtures.insights_page Fixtures.stalled_url)))))
              tt tt (Partition "1") 1699000000 0
              (Fixtures.insights_page Fixtures.stalled_url)
              [("next", JStr Fixtures.stalled_url)] (JStr Fixtures.stalled_url)
              (PlainLib.parse_qs (PlainLib.query_of Fixtures.stalled_url))
              1699910000 1699990000
              eq_refl (fun _ => eq_refl) eq_refl eq_refl eq_refl eq_refl
              eq_refl eq_refl)
    as (Hfin & _ & Hreq & _).
  - left. by vm_compute.
  - split; [exact Hfin | exact Hreq].
Defined.

Lemma returned_state_has_no_marker_list_witness :
  dict_get "progress_markers"
    (FacebookPagesStream.get_stream_or_partition_state
       [("progress_markers", JList [JInt 1])] (fun _ => []) None)
  = Some (JObj [])
  /\ is_list (JObj []) = false.
Proof.
  split; [reflexivity|].
  exact (proj1 (returned_state_has_no_marker_list
                  [("progress_markers", JList [JInt 1])] (fun _ => []) None)
           (JObj []) eq_refl).
Defined.
